(** * House price prediction service (app.py): model and properties

    The service is a Flask application around a scikit-learn pipeline.
    This development embeds the Python module [app.py] function by
    function:

    - Python floats are IEEE 754 binary64 values, taken from the
      Standard Library's executable specification [SpecFloat];
    - the request body is a JSON value as [json.loads] builds it;
    - the handlers run in a small monad with early [return] and
      exceptions, closed by the [try]/[except] clauses of the source;
    - module globals, the working directory, the numpy generator and the
      standard output are fields of an explicit process state;
    - numpy, scikit-learn, joblib and the float rounding and formatting
      of the interpreter are interfaces (records of operations): the
      source only calls them;
    - a Python str is held as its UTF-8 bytes; [float] and [repr] are
      written out for ASCII text and taken from the interface for text
      with other characters, where they follow the interpreter's Unicode
      tables. *)

From Stdlib Require Import ZArith String Ascii List Bool Lia.
From Stdlib Require Import Floats.SpecFloat.
From stdpp Require Import gmap strings pretty.
Import ListNotations.

#[local] Set Warnings "-register-all".
#[local] Open Scope string_scope.
#[local] Open Scope Z_scope.

(** ** Binary64 floats *)

Module Float64.

Definition float := spec_float.

Definition prec : Z := 53.
Definition emax : Z := 1024.

Definition nan : float := S754_nan.
Definition inf (neg : bool) : float := S754_infinity neg.

Definition add : float -> float -> float := SFadd prec emax.
Definition sub : float -> float -> float := SFsub prec emax.
Definition mul : float -> float -> float := SFmul prec emax.
Definition div : float -> float -> float := SFdiv prec emax.

(** [x < y], [x <= y], [x > y] of Python floats: false as soon as one
    side is NaN. *)
Definition ltb : float -> float -> bool := SFltb.
Definition leb : float -> float -> bool := SFleb.
Definition gtb (x y : float) : bool := ltb y x.

Definition is_nan (x : float) : bool :=
  match x with S754_nan => true | _ => false end.

Definition is_finite (x : float) : bool :=
  match x with S754_zero _ | S754_finite _ _ _ => true | _ => false end.

(** The float nearest to an integer (ties to even); an infinity when the
    integer is beyond the largest float. *)
Definition of_Z (z : Z) : float := binary_normalize prec emax z 0 false.

(** The float nearest to [(-1)^neg * m * 10^e], as [strtod] computes it
    from a decimal literal. *)
Definition of_decimal (neg : bool) (m : Z) (e : Z) : float :=
  match m with
  | Zpos p =>
      if 0 <=? e then binary_round prec emax neg (Z.to_pos (Zpos p * 10 ^ e)) 0
      else
        let '(q, e', l) :=
          SFdiv_core_binary prec emax (Zpos p) 0 (10 ^ (- e)) 0 in
        binary_round_aux prec emax neg q e' l
  | _ => S754_zero neg
  end.

Definition bounded_float (x : float) : bool := valid_binary prec emax x.

End Float64.

Import Float64.


(** ** Python values and exceptions *)

(** A JSON value as [json.loads] returns it: [None], [bool], [int], [float],
    [str], [list], [dict] with string keys. *)
Inductive json : Type :=
| JNull
| JBool (b : bool)
| JInt (z : Z)
| JFloat (f : float)
| JStr (s : string)
| JArr (l : list json)
| JObj (m : gmap string json).

(** Exception classes, up to what [except ValueError] can tell apart:
    [ValueErrorSubclass] stands for any class derived from [ValueError],
    [OtherException] for any class that is not. *)
Inductive exn_class : Type :=
| ValueError
| ValueErrorSubclass (name : string)
| TypeError
| OverflowError
| AttributeError
| IndexError
| HTTPException
| OtherException (name : string).

Record exn : Type := mk_exn { exn_type : exn_class; exn_str : string }.

(** [isinstance(e, ValueError)] *)
Definition is_ValueError (e : exn) : bool :=
  match exn_type e with
  | ValueError | ValueErrorSubclass _ => true
  | _ => false
  end.

(** ** The libraries the module calls *)

(** What a module global can hold: [None], a fitted [StandardScaler] or a
    fitted [LinearRegression]. *)
Inductive pyobj (S M : Type) : Type :=
| PyNone
| Scaler (s : S)
| Model (m : M).

Arguments PyNone {S M}.
Arguments Scaler {S M} s.
Arguments Model {S M} m.

Abbreviation vector := (list float).
Abbreviation matrix := (list (list float)).

(** numpy's global generator, scikit-learn's estimators, joblib's
    serialization and the interpreter's float rounding and formatting. *)
Record libs : Type := {
  (* numpy.random: each draw reads and advances the generator *)
  rng_t : Type;
  np_seed : Z -> rng_t;
  np_randint : Z -> Z -> nat -> rng_t -> list Z * rng_t;
  np_rand : nat -> rng_t -> vector * rng_t;
  np_choice : vector -> nat -> rng_t -> vector * rng_t;
  np_normal : float -> float -> nat -> rng_t -> vector * rng_t;
  (* sklearn *)
  scaler_t : Type;
  model_t : Type;
  train_test_split :
    matrix -> vector -> float -> Z -> matrix * matrix * vector * vector;
  fit_transform : matrix -> scaler_t * matrix;
  transform : scaler_t -> matrix -> exn + matrix;
  fit : matrix -> vector -> model_t;
  predict : model_t -> matrix -> exn + vector;
  mean_squared_error : vector -> vector -> float;
  r2_score : vector -> vector -> float;
  (* joblib: the content of an artifact file is opaque *)
  file_t : Type;
  joblib_dump : pyobj scaler_t model_t -> file_t;
  joblib_load : file_t -> exn + pyobj scaler_t model_t;
  (* round(x, ndigits) and format(x, spec) on floats *)
  round_float : float -> Z -> float;
  format_float : string -> float -> string;
  (* float(s) and repr(s) on a str with characters beyond ASCII, where
     they depend on the interpreter's Unicode tables; None is ValueError *)
  float_of_unicode : string -> option float;
  repr_of_unicode : string -> string
}.

(** A Python number that is an [int] or a [float]. *)
Inductive pynum : Type :=
| PInt (z : Z)
| PFloat (f : float).

Definition json_of_pynum (n : pynum) : json :=
  match n with
  | PInt z => JInt z
  | PFloat f => JFloat f
  end.

(** ** [float(x)] *)

Module PyFloat.

Definition code (c : ascii) : Z := Z.of_N (N_of_ascii c).

Definition is_digit (c : ascii) : bool := (48 <=? code c) && (code c <=? 57).
Definition digit_val (c : ascii) : Z := code c - 48.

(** [Py_ISSPACE]: the white space [float] strips around the literal, that
    is tab, line feed, vertical tab, form feed, carriage return, space. *)
Definition is_space (c : ascii) : bool :=
  ((9 <=? code c) && (code c <=? 13)) || (code c =? 32).

Definition lower (c : ascii) : ascii :=
  if (65 <=? code c) && (code c <=? 90)
  then ascii_of_N (N_of_ascii c + 32) else c.

Fixpoint lstrip (l : list ascii) : list ascii :=
  match l with
  | c :: r => if is_space c then lstrip r else l
  | [] => []
  end.

Definition strip (l : list ascii) : list ascii :=
  rev (lstrip (rev (lstrip l))).

(** Digits accumulated so far: their value and their number. *)
Record digits := mk_digits { dvalue : Z; dcount : Z }.

Definition push (d : digits) (c : ascii) : digits :=
  mk_digits (10 * dvalue d + digit_val c) (dcount d + 1).

(** The rest of a [digitpart]: digits, each optionally preceded by one
    underscore. *)
Fixpoint digitpart_rest (d : digits) (l : list ascii) : digits * list ascii :=
  match l with
  | c :: r =>
      if is_digit c then digitpart_rest (push d c) r
      else if Ascii.eqb c "_" then
        match r with
        | c' :: r' =>
            if is_digit c' then digitpart_rest (push d c') r' else (d, l)
        | [] => (d, l)
        end
      else (d, l)
  | [] => (d, [])
  end.

(** [digitpart ::= digit (["_"] digit)*] *)
Definition digitpart (d : digits) (l : list ascii)
  : option (digits * list ascii) :=
  match l with
  | c :: r => if is_digit c then Some (digitpart_rest (push d c) r) else None
  | [] => None
  end.

(** [number ::= [digitpart] "." digitpart | digitpart ["."]]: the digits
    of the integer and fraction parts as one integer, and the number of
    fraction digits. *)
Definition number (l : list ascii) : option (Z * Z * list ascii) :=
  match digitpart (mk_digits 0 0) l with
  | Some (ip, r) =>
      match r with
      | "."%char :: r1 =>
          match digitpart (mk_digits (dvalue ip) 0) r1 with
          | Some (fp, r2) => Some (dvalue fp, dcount fp, r2)
          | None => Some (dvalue ip, 0, r1)
          end
      | _ => Some (dvalue ip, 0, r)
      end
  | None =>
      match l with
      | "."%char :: r1 =>
          match digitpart (mk_digits 0 0) r1 with
          | Some (fp, r2) => Some (dvalue fp, dcount fp, r2)
          | None => None
          end
      | _ => None
      end
  end.

Definition sign (l : list ascii) : bool * list ascii :=
  match l with
  | "-"%char :: r => (true, r)
  | "+"%char :: r => (false, r)
  | _ => (false, l)
  end.

(** [exponent ::= ("e" | "E") [sign] digitpart]; absent exponent is 0. *)
Definition exponent (l : list ascii) : option (Z * list ascii) :=
  match l with
  | c :: r =>
      if Ascii.eqb (lower c) "e" then
        let '(neg, r1) := sign r in
        match digitpart (mk_digits 0 0) r1 with
        | Some (d, r2) => Some (if neg then - dvalue d else dvalue d, r2)
        | None => None
        end
      else Some (0, l)
  | [] => Some (0, [])
  end.

Definition floatnumber (neg : bool) (l : list ascii) : option float :=
  match number l with
  | Some (m, nfrac, r) =>
      match exponent r with
      | Some (e, []) => Some (of_decimal neg m (e - nfrac))
      | _ => None
      end
  | None => None
  end.

(** [float(s)] for a str of ASCII characters: [None] is the
    [ValueError]. *)
Definition of_ascii (s : string) : option float :=
  let '(neg, l) := sign (strip (list_ascii_of_string s)) in
  let word := string_of_list_ascii (map lower l) in
  if String.eqb word "nan" then Some nan
  else if String.eqb word "inf" || String.eqb word "infinity"
  then Some (inf neg)
  else floatnumber neg l.

Definition is_ascii (s : string) : bool :=
  forallb (fun c => code c <? 128) (list_ascii_of_string s).

Definition squote : ascii := ascii_of_N 39.
Definition dquote : ascii := ascii_of_N 34.
Definition backslash : ascii := ascii_of_N 92.

Definition hex_digit (n : Z) : ascii :=
  ascii_of_N (Z.to_N (if n <? 10 then 48 + n else 87 + n)).

(** One character of [repr(s)] inside the quotes [q]. *)
Definition repr_char (q c : ascii) : list ascii :=
  if Ascii.eqb c q || Ascii.eqb c backslash then [backslash; c]
  else if code c =? 9 then [backslash; "t"%char]
  else if code c =? 10 then [backslash; "n"%char]
  else if code c =? 13 then [backslash; "r"%char]
  else if (code c <? 32) || (code c =? 127)
  then [backslash; "x"%char; hex_digit (code c / 16); hex_digit (code c mod 16)]
  else [c].

(** [repr(s)] for a str of ASCII characters: double quotes when the text
    holds an apostrophe and no double quote, single quotes otherwise. *)
Definition repr_ascii (s : string) : string :=
  let l := list_ascii_of_string s in
  let q :=
    if existsb (Ascii.eqb squote) l && negb (existsb (Ascii.eqb dquote) l)
    then dquote else squote in
  string_of_list_ascii (q :: concat (map (repr_char q) l) ++ [q])%list.

End PyFloat.

Import PyFloat.

Definition type_name (v : json) : string :=
  match v with
  | JNull => "NoneType"
  | JBool _ => "bool"
  | JInt _ => "int"
  | JFloat _ => "float"
  | JStr _ => "str"
  | JArr _ => "list"
  | JObj _ => "dict"
  end.

Section Builtins.

Context (L : libs).

(** [float(s)] on a str, held as its UTF-8 bytes. *)
Definition of_string (s : string) : option float :=
  if is_ascii s then of_ascii s else float_of_unicode L s.

(** [repr(s)] on a str. *)
Definition py_repr (s : string) : string :=
  if is_ascii s then repr_ascii s else repr_of_unicode L s.

(** [float(v)]: the builtin applied to a JSON value. *)
Definition py_float (v : json) : exn + float :=
  match v with
  | JFloat f => inr f
  | JInt z =>
      match of_Z z with
      | S754_infinity _ =>
          inl (mk_exn OverflowError "int too large to convert to float")
      | f => inr f
      end
  | JBool b => inr (of_Z (if b then 1 else 0))
  | JStr s =>
      match of_string s with
      | Some f => inr f
      | None =>
          inl (mk_exn ValueError
                 ("could not convert string to float: " ++ py_repr s))
      end
  | JNull | JArr _ | JObj _ =>
      inl (mk_exn TypeError
             ("float() argument must be a string or a real number, not '"
                ++ type_name v ++ "'"))
  end.

End Builtins.

(** ** Responses and the control flow of a handler *)

Record response : Type := mk_response { status : Z; body : json }.

(** [jsonify(d)] with Flask's default status, and [(jsonify(d), code)]. *)
Definition jsonify (d : gmap string json) : response := mk_response 200 (JObj d).
Definition jsonify_status (d : gmap string json) (code : Z) : response :=
  mk_response code (JObj d).

Definition error_body (msg : string) : gmap string json :=
  {[ "error" := JStr msg ]}.

(** A statement of a handler either falls through with a value, leaves the
    function with [return], or raises. *)
Inductive flow (A : Type) : Type :=
| Next (a : A)
| Return (r : response)
| Raise (e : exn).

Arguments Next {A} a.
Arguments Return {A} r.
Arguments Raise {A} e.

Definition bind {A B : Type} (c : flow A) (k : A -> flow B) : flow B :=
  match c with
  | Next a => k a
  | Return r => Return r
  | Raise e => Raise e
  end.

Notation "'do' x <- c ; k" := (bind c (fun x => k))
  (at level 10, x name, c at level 100, k at level 200,
   format "'[v' 'do'  x  <-  c ; '/' k ']'").

Definition lift {A : Type} (r : exn + A) : flow A :=
  match r with
  | inr a => Next a
  | inl e => Raise e
  end.

(** ** Containers: [field in data] and [data[field]] *)

Fixpoint is_prefix (p s : list ascii) : bool :=
  match p, s with
  | [], _ => true
  | c :: p', d :: s' => Ascii.eqb c d && is_prefix p' s'
  | _ :: _, [] => false
  end.

Fixpoint is_substring (p s : list ascii) : bool :=
  is_prefix p s ||
  match s with
  | [] => false
  | _ :: s' => is_substring p s'
  end.

Definition json_eq_str (field : string) (v : json) : bool :=
  match v with
  | JStr s => String.eqb s field
  | _ => false
  end.

(** [field in data]: key membership for a dict, element membership for a
    list, substring test for a string; [TypeError] otherwise. *)
Definition py_contains (data : json) (field : string) : exn + bool :=
  match data with
  | JObj m => inr (bool_decide (is_Some (m !! field)))
  | JArr l => inr (existsb (json_eq_str field) l)
  | JStr s =>
      inr (is_substring (list_ascii_of_string field) (list_ascii_of_string s))
  | _ =>
      inl (mk_exn TypeError
             ("argument of type '" ++ type_name data ++ "' is not iterable"))
  end.

(** [data[field]] with a string subscript. *)
Definition py_getitem (L : libs) (data : json) (field : string)
  : exn + json :=
  match data with
  | JObj m =>
      match m !! field with
      | Some v => inr v
      | None => inl (mk_exn (OtherException "KeyError") (py_repr L field))
      end
  | JArr _ =>
      inl (mk_exn TypeError "list indices must be integers or slices, not str")
  | JStr _ =>
      inl (mk_exn TypeError "string indices must be integers, not 'str'")
  | _ =>
      inl (mk_exn TypeError
             ("'" ++ type_name data ++ "' object is not subscriptable"))
  end.

(** ** The module *)

Definition feature_names : list string :=
  ["bedrooms"; "bathrooms"; "sqft_living"; "floors"; "age"].

(** A request as [request.get_json()] sees it: a parsed JSON body, or a
    body or content type that makes [get_json] raise. *)
Inductive request : Type :=
| JsonBody (data : json)
| NotJson (reason : string).

Definition get_json (req : request) : flow json :=
  match req with
  | JsonBody data => Next data
  | NotJson reason => Raise (mk_exn HTTPException reason)
  end.

Section App.

Context (L : libs).

#[local] Abbreviation obj := (pyobj (scaler_t L) (model_t L)).

(** The module globals [model] and [scaler]. *)
Record globals : Type := mk_globals { model : obj; scaler : obj }.

(** [scaler.transform(X)] on whatever the global holds. *)
Definition call_transform (o : obj) (X : matrix) : flow matrix :=
  match o with
  | Scaler s => lift (transform L s X)
  | PyNone =>
      Raise (mk_exn AttributeError
               "'NoneType' object has no attribute 'transform'")
  | Model _ =>
      Raise (mk_exn AttributeError
               "'LinearRegression' object has no attribute 'transform'")
  end.

(** [model.predict(X)] on whatever the global holds. *)
Definition call_predict (o : obj) (X : matrix) : flow vector :=
  match o with
  | Model m => lift (predict L m X)
  | PyNone =>
      Raise (mk_exn AttributeError
               "'NoneType' object has no attribute 'predict'")
  | Scaler _ =>
      Raise (mk_exn AttributeError
               "'StandardScaler' object has no attribute 'predict'")
  end.

Definition index0 (v : vector) : flow float :=
  match v with
  | y :: _ => Next y
  | [] =>
      Raise (mk_exn IndexError
               "index 0 is out of bounds for axis 0 with size 0")
  end.

(** [health_check] *)
Definition health_check : response :=
  jsonify {[ "status" := JStr "healthy";
             "message" := JStr "House Price Prediction API is running" ]}.

(** The loop over [required_fields]. *)
Fixpoint check_required (data : json) (fields : list string) : flow unit :=
  match fields with
  | [] => Next tt
  | field :: rest =>
      do present <- lift (py_contains data field);
      if negb present
      then Return (jsonify_status
                     (error_body ("Missing required field: " ++ field)) 400)
      else check_required data rest
  end.

(** [float(data[field])] *)
Definition extract (data : json) (field : string) : flow float :=
  do v <- lift (py_getitem L data field);
  lift (py_float L v).

Definition reject (msg : string) : flow unit :=
  Return (jsonify_status (error_body msg) 400).

(** The five range tests, in the order of the source. *)
Definition validate_ranges (f0 f1 f2 f3 f4 : float) : flow unit :=
  if ltb f0 (of_Z 1) || gtb f0 (of_Z 10)
  then reject "Bedrooms must be between 1 and 10" else
  if ltb f1 (of_decimal false 5 (-1)) || gtb f1 (of_Z 10)
  then reject "Bathrooms must be between 0.5 and 10" else
  if ltb f2 (of_Z 100) || gtb f2 (of_Z 20000)
  then reject "Square footage must be between 100 and 20,000" else
  if ltb f3 (of_Z 1) || gtb f3 (of_Z 5)
  then reject "Floors must be between 1 and 5" else
  if ltb f4 (of_Z 0) || gtb f4 (of_Z 200)
  then reject "Age must be between 0 and 200 years" else
  Next tt.

(** [max(prediction, 50000)]: the second argument replaces the first
    only when it compares greater. *)
Definition max_50000 (prediction : float) : pynum :=
  if gtb (of_Z 50000) prediction then PInt 50000 else PFloat prediction.

(** [round(prediction, 2)] *)
Definition py_round (n : pynum) (ndigits : Z) : pynum :=
  match n with
  | PInt z => PInt z
  | PFloat f => PFloat (round_float L f ndigits)
  end.

(** [f"{prediction:,.2f}"] *)
Definition format_money (n : pynum) : string :=
  match n with
  | PInt z => format_float L ",.2f" (of_Z z)
  | PFloat f => format_float L ",.2f" f
  end.

(** Scaling, prediction and the success response: the statements after the
    range tests. *)
Definition predict_pipeline (g : globals) (f0 f1 f2 f3 f4 : float)
  : flow response :=
  let features := [f0; f1; f2; f3; f4] in
  do features_scaled <- call_transform (scaler g) [features];
  do ys <- call_predict (model g) features_scaled;
  do prediction <- index0 ys;
  let prediction := max_50000 prediction in
  Next (jsonify
          {[ "predicted_price" := json_of_pynum (py_round prediction 2);
             "formatted_price" := JStr ("$" ++ format_money prediction);
             "input_features" :=
               JObj {[ "bedrooms" := JFloat f0;
                       "bathrooms" := JFloat f1;
                       "sqft_living" := JFloat f2;
                       "floors" := JFloat f3;
                       "age" := JFloat f4 ]} ]}).

(** The statements of [predict_price] inside [try]. *)
Definition predict_try (g : globals) (req : request) : flow response :=
  do data <- get_json req;
  do _ <- check_required data feature_names;
  do f0 <- extract data "bedrooms";
  do f1 <- extract data "bathrooms";
  do f2 <- extract data "sqft_living";
  do f3 <- extract data "floors";
  do f4 <- extract data "age";
  do _ <- validate_ranges f0 f1 f2 f3 f4;
  predict_pipeline g f0 f1 f2 f3 f4.

(** The [except ValueError] and [except Exception] clauses. *)
Definition predict_except (e : exn) : response :=
  if is_ValueError e
  then jsonify_status (error_body ("Invalid input data: " ++ exn_str e)) 400
  else jsonify_status (error_body ("Prediction failed: " ++ exn_str e)) 500.

(** [predict_price] *)
Definition predict_price (g : globals) (req : request) : response :=
  match predict_try g req with
  | Next r | Return r => r
  | Raise e => predict_except e
  end.

Definition feature_descriptions : gmap string json :=
  {[ "bedrooms" := JStr "Number of bedrooms (1-10)";
     "bathrooms" := JStr "Number of bathrooms (0.5-10)";
     "sqft_living" := JStr "Living area in square feet (100-20,000)";
     "floors" := JStr "Number of floors (1-5)";
     "age" := JStr "Age of the house in years (0-200)" ]}.

(** [model_info] *)
Definition model_info (g : globals) : response :=
  match model g with
  | PyNone => jsonify_status (error_body "Model not loaded") 500
  | _ =>
      jsonify
        {[ "model_type" := JStr "Linear Regression";
           "features" := JArr (map JStr feature_names);
           "feature_descriptions" := JObj feature_descriptions ]}
  end.

End App.

(** ** Synthetic data, training and loading *)

(** int64 arithmetic of numpy integer arrays. *)
Definition wrap64 (z : Z) : Z := (z + 2 ^ 63) mod 2 ^ 64 - 2 ^ 63.

(** [np.maximum(a, b)] on one element: a NaN on either side is returned. *)
Definition np_maximum (a b : float) : float :=
  if is_nan a then a else if is_nan b then b else if gtb a b then a else b.

(** The feature columns of the data frame: [randint] columns are int64,
    the others float64. *)
Record columns : Type := mk_columns {
  bedrooms : list Z;
  bathrooms : vector;
  sqft_living : list Z;
  floors : vector;
  age : list Z
}.

Record dataframe : Type := mk_dataframe {
  features : columns;
  price : vector
}.

Definition n_samples : nat := 1000.

(** The values [np.random.choice] draws the number of floors from. *)
Definition floor_values : vector :=
  [of_Z 1; of_decimal false 15 (-1); of_Z 2; of_decimal false 25 (-1); of_Z 3].


(** The same sum on whole arrays, one elementwise operation at a time.
    Arrays of one draw size have the same length, so no broadcast error
    arises. *)
Definition prices (c : columns) (noise : vector) : vector :=
  let t1 := (fun z => wrap64 (z * 15000)) <$> bedrooms c in
  let t2 := (fun x => mul x (of_Z 20000)) <$> bathrooms c in
  let t3 := (fun z => wrap64 (z * 150)) <$> sqft_living c in
  let t4 := (fun x => mul x (of_Z 10000)) <$> floors c in
  let t5 := (fun z => wrap64 (z * 2000)) <$> age c in
  let s12 := zip_with (fun z x => add (of_Z z) x) t1 t2 in
  let s3 := zip_with (fun x z => add x (of_Z z)) s12 t3 in
  let s4 := zip_with add s3 t4 in
  let s5 := zip_with (fun x z => sub x (of_Z z)) s4 t5 in
  let s6 := zip_with add s5 noise in
  (fun x => add x (of_Z 200000)) <$> s6.

(** Rows of the feature matrix [df[feature_names]] as floats. *)
Fixpoint rows (c0 c1 c2 c3 c4 : vector) : matrix :=
  match c0, c1, c2, c3, c4 with
  | x0 :: r0, x1 :: r1, x2 :: r2, x3 :: r3, x4 :: r4 =>
      [x0; x1; x2; x3; x4] :: rows r0 r1 r2 r3 r4
  | _, _, _, _, _ => []
  end.

Definition feature_matrix (c : columns) : matrix :=
  rows (of_Z <$> bedrooms c) (bathrooms c) (of_Z <$> sqft_living c)
    (floors c) (of_Z <$> age c).

Definition model_path : string := "house_price_model.pkl".
Definition scaler_path : string := "scaler.pkl".

(** How a procedure without [try] ends. *)
Inductive outcome : Type :=
| Done
| Raised (e : exn).

Section Startup.

Context (L : libs).

#[local] Abbreviation obj := (pyobj (scaler_t L) (model_t L)).

(** The process: module globals, files of the working directory, numpy's
    global generator, and the lines printed so far. *)
Record state : Type := mk_state {
  mem : globals L;
  fs : gmap string (file_t L);
  rng : rng_t L;
  stdout : list string
}.

Definition set_model (o : obj) (st : state) : state :=
  mk_state (mk_globals L o (scaler L (mem st))) (fs st) (rng st) (stdout st).
Definition set_scaler (o : obj) (st : state) : state :=
  mk_state (mk_globals L (model L (mem st)) o) (fs st) (rng st) (stdout st).
Definition set_rng (r : rng_t L) (st : state) : state :=
  mk_state (mem st) (fs st) r (stdout st).
Definition print (line : string) (st : state) : state :=
  mk_state (mem st) (fs st) (rng st) (stdout st ++ [line]).
Definition write_file (path : string) (content : file_t L) (st : state) : state :=
  mk_state (mem st) (<[path := content]> (fs st)) (rng st) (stdout st).

(** [os.path.exists] *)
Definition path_exists (path : string) (st : state) : bool :=
  bool_decide (is_Some (fs st !! path)).

(** The five feature draws, in the order of the dict literal. *)
Definition sample_features (r0 : rng_t L) : columns * rng_t L :=
  let '(bed, r1) := np_randint L 1 6 n_samples r0 in
  let '(bath_int, r2) := np_randint L 1 4 n_samples r1 in
  let '(bath_frac, r3) := np_rand L n_samples r2 in
  let bath := zip_with (fun z x => add (of_Z z) x) bath_int bath_frac in
  let '(sqft, r4) := np_randint L 800 5000 n_samples r3 in
  let '(flo, r5) :=
    np_choice L floor_values n_samples r4 in
  let '(ag, r6) := np_randint L 0 50 n_samples r5 in
  (mk_columns bed bath sqft flo ag, r6).

(** The noise draw of the price expression. *)
Definition sample_noise (r : rng_t L) : vector * rng_t L :=
  np_normal L (of_Z 0) (of_Z 20000) n_samples r.

(** [create_sample_data]: the generator it is called with is discarded by
    [np.random.seed(42)]. *)
Definition create_sample_data (r : rng_t L) : dataframe * rng_t L :=
  let r0 := np_seed L 42 in
  let '(c, r6) := sample_features r0 in
  let '(noise, r7) := sample_noise r6 in
  (mk_dataframe c ((fun p => np_maximum p (of_Z 100000)) <$> prices c noise),
   r7).

(** [train_test_split(X, y, test_size=0.2, random_state=42)] on the data
    frame of [create_sample_data]. *)
Definition split_data (df : dataframe) : matrix * matrix * vector * vector :=
  train_test_split L (feature_matrix (features df)) (price df)
    (of_decimal false 2 (-1)) 42.

(** [train_model] *)
Definition train_model (st : state) : state * outcome :=
  let '(df, r) := create_sample_data (rng st) in
  let st := set_rng r st in
  let '(X_train, X_test, y_train, y_test) := split_data df in
  let '(sc, X_train_scaled) := fit_transform L X_train in
  let st := set_scaler (Scaler sc) st in
  match transform L sc X_test with
  | inl e => (st, Raised e)
  | inr X_test_scaled =>
      let m := fit L X_train_scaled y_train in
      let st := set_model (Model m) st in
      match predict L m X_test_scaled with
      | inl e => (st, Raised e)
      | inr y_pred =>
          let mse := mean_squared_error L y_test y_pred in
          let r2 := r2_score L y_test y_pred in
          let st := print "Model trained successfully!" st in
          let st :=
            print ("Mean Squared Error: " ++ format_float L ".2f" mse) st in
          let st := print ("R² Score: " ++ format_float L ".4f" r2) st in
          let st := write_file model_path (joblib_dump L (Model m)) st in
          let st := write_file scaler_path (joblib_dump L (Scaler sc)) st in
          (st, Done)
      end
  end.

(** [joblib.load(path)] of a file that exists. *)
Definition load_file (path : string) (st : state) : exn + obj :=
  match fs st !! path with
  | Some content => joblib_load L content
  | None =>
      inl (mk_exn (OtherException "FileNotFoundError")
             ("[Errno 2] No such file or directory: " ++ py_repr L path))
  end.

(** [load_model] *)
Definition load_model (st : state) : state * outcome :=
  if path_exists model_path st && path_exists scaler_path st then
    match load_file model_path st with
    | inl e => (st, Raised e)
    | inr m =>
        let st := set_model m st in
        match load_file scaler_path st with
        | inl e => (st, Raised e)
        | inr sc =>
            let st := set_scaler sc st in
            (print "Model loaded successfully!" st, Done)
        end
    end
  else
    train_model (print "No saved model found. Training new model..." st).

End Startup.

(** ** The fitted pair

    The data frame, the split and the fitted objects as functions of the
    libraries alone. *)

Definition training_data (L : libs) : dataframe :=
  (create_sample_data L (np_seed L 42)).1.

Definition fitted_scaler (L : libs) : scaler_t L :=
  let '(X_train, _, _, _) := split_data L (training_data L) in
  (fit_transform L X_train).1.

Definition fitted_model (L : libs) : model_t L :=
  let '(X_train, _, y_train, _) := split_data L (training_data L) in
  fit L (fit_transform L X_train).2 y_train.

(** ** An executable instance of the libraries

    A small generator, standardization, least squares one feature at a
    time, and artifact files that hold the object itself.  It runs the
    module on concrete requests; the properties below are stated for every
    instance of [libs]. *)

Module Instance.

Definition lcg (g : Z) : Z :=
  (6364136223846793005 * g + 1442695040888963407) mod 2 ^ 64.

Fixpoint draw {A : Type} (pick : Z -> A) (n : nat) (g : Z) : list A * Z :=
  match n with
  | O => ([], g)
  | S n' =>
      let g' := lcg g in
      let '(l, g'') := draw pick n' g' in
      (pick (g' / 2 ^ 33) :: l, g'')
  end.

Definition randint (lo hi : Z) : nat -> Z -> list Z * Z :=
  draw (fun u => lo + u mod (hi - lo)).

Definition quarters : vector :=
  [of_Z 0; of_decimal false 25 (-2); of_decimal false 5 (-1);
   of_decimal false 75 (-2)].

Definition rand : nat -> Z -> vector * Z :=
  draw (fun u => nth (Z.to_nat (u mod 4)) quarters (of_Z 0)).

Definition choice (l : vector) : nat -> Z -> vector * Z :=
  draw (fun u => nth (Z.to_nat (u mod Z.of_nat (length l))) l (hd (of_Z 0) l)).

(** Three-point noise [loc - scale], [loc], [loc + scale]. *)
Definition normal (loc scale : float) : nat -> Z -> vector * Z :=
  draw (fun u =>
          let lo := sub loc scale in
          let hi := add loc scale in
          if is_finite lo && is_finite hi
          then nth (Z.to_nat (u mod 3)) [lo; loc; hi] loc
          else loc).

Fixpoint sum (v : vector) : float :=
  match v with
  | [] => of_Z 0
  | x :: r => add x (sum r)
  end.

Definition mean (v : vector) : float :=
  div (sum v) (of_Z (Z.of_nat (length v))).

Definition column (j : nat) (X : matrix) : vector :=
  (fun row => nth j row (of_Z 0)) <$> X.

Definition std (v : vector) : float :=
  let mu := mean v in
  let var := mean ((fun x => mul (sub x mu) (sub x mu)) <$> v) in
  let sd := SFsqrt prec emax var in
  if SFeqb sd (of_Z 0) then of_Z 1 else sd.

Record scaler : Type := mk_scaler { mean_ : vector; scale_ : vector }.
Record regression : Type := mk_regression { coef_ : vector; intercept_ : float }.

Definition standardize (sc : scaler) (row : vector) : vector :=
  zip_with (fun xm s => div xm s) (zip_with sub row (mean_ sc)) (scale_ sc).

Definition transform (sc : scaler) (X : matrix) : exn + matrix :=
  if forallb (fun row => Nat.eqb (length row) (length (mean_ sc))) X
  then inr (standardize sc <$> X)
  else inl (mk_exn ValueError "X has a different number of features than StandardScaler is expecting").

Definition fit_transform (X : matrix) : scaler * matrix :=
  let cols := (fun j => column j X) <$> seq 0 5 in
  let sc := mk_scaler (mean <$> cols) (std <$> cols) in
  (sc, standardize sc <$> X).

Definition dot (u v : vector) : float := sum (zip_with mul u v).

Definition predict (m : regression) (X : matrix) : exn + vector :=
  if forallb (forallb is_finite) X
  then inr ((fun row => add (dot row (coef_ m)) (intercept_ m)) <$> X)
  else inl (mk_exn ValueError "Input X contains NaN or infinity.").

(** Least squares of the centred target on each standardized feature. *)
Definition fit (X : matrix) (y : vector) : regression :=
  let mu := mean y in
  let yc := (fun t => sub t mu) <$> y in
  mk_regression ((fun j => mean (zip_with mul (column j X) yc)) <$> seq 0 5) mu.

(** Every fifth sample is held out. *)
Fixpoint split {A : Type} (k : nat) (l : list A) : list A * list A :=
  match l with
  | [] => ([], [])
  | x :: r =>
      let '(tr, te) := split (S k) r in
      if Nat.eqb (k mod 5) 4 then (tr, x :: te) else (x :: tr, te)
  end.

Definition train_test_split (X : matrix) (y : vector) (test_size : float)
  (random_state : Z) : matrix * matrix * vector * vector :=
  let '(Xtr, Xte) := split 0 X in
  let '(ytr, yte) := split 0 y in
  (Xtr, Xte, ytr, yte).

Definition mean_squared_error (y yp : vector) : float :=
  mean (zip_with (fun a b => mul (sub a b) (sub a b)) y yp).

Definition r2_score (y yp : vector) : float :=
  let mu := mean y in
  sub (of_Z 1)
    (div (sum (zip_with (fun a b => mul (sub a b) (sub a b)) y yp))
       (sum ((fun a => mul (sub a mu) (sub a mu)) <$> y))).

(** The integer nearest to [x * 10^nd] (ties to even), for a finite [x]. *)
Definition scaled_int (x : float) (nd : Z) : Z :=
  match x with
  | S754_finite neg m e =>
      let num := Zpos m * 10 ^ nd * 2 ^ Z.max e 0 in
      let den := 2 ^ Z.max (- e) 0 in
      let q := num / den in
      let r := num mod den in
      let q' :=
        if (2 * r <? den) then q
        else if (den <? 2 * r) then q + 1
        else if Z.even q then q else q + 1 in
      if neg then - q' else q'
  | _ => 0
  end.

Fixpoint group3 (fuel : nat) (z : Z) : string :=
  match fuel with
  | O => pretty z
  | S fuel' =>
      if z <? 1000 then pretty z
      else
        let r := z mod 1000 in
        group3 fuel' (z / 1000) ++ ","
          ++ (if r <? 10 then "00" else if r <? 100 then "0" else "")
          ++ pretty r
  end.

(** [format(x, ",.2f")], [format(x, ".2f")] and [format(x, ".4f")] on
    finite floats. *)
Definition format_float (spec : string) (x : float) : string :=
  let comma := String.prefix "," spec in
  let nd := if String.eqb spec ".4f" then 4 else 2 in
  let n := scaled_int x nd in
  let a := Z.abs n in
  let ip := a / 10 ^ nd in
  let fp := pretty (10 ^ nd + a mod 10 ^ nd) in
  (if n <? 0 then "-" else "")
    ++ (if comma then group3 20 ip else pretty ip)
    ++ "." ++ String.substring 1 (Z.to_nat nd) fp.

Definition artifact : Type := option (pyobj scaler regression).

(** Rounding is left out: [round] returns its argument. *)
Definition round_float (x : float) (ndigits : Z) : float := x.

Definition dump (o : pyobj scaler regression) : artifact := Some o.

Definition load (c : artifact) : exn + pyobj scaler regression :=
  match c with
  | Some o => inr o
  | None => inl (mk_exn (OtherException "UnpicklingError") "invalid load key")
  end.

(** The Unicode 14.0 tables behind [float] on a str: the code points
    that start a run of ten decimal digits, and the white space beyond
    ASCII. *)
Definition decimal_zeros : list Z :=
  [1632; 1776; 1984; 2406; 2534; 2662; 2790; 2918; 3046; 3174; 3302; 3430;
   3558; 3664; 3792; 3872; 4160; 4240; 6112; 6160; 6470; 6608; 6784; 6800;
   6992; 7088; 7232; 7248; 42528; 43216; 43264; 43472; 43504; 43600; 44016;
   65296; 66720; 68912; 69734; 69872; 69942; 70096; 70384; 70736; 70864;
   71248; 71360; 71472; 71904; 72016; 72784; 73040; 73120; 92768; 92864;
   93008; 120782; 120792; 120802; 120812; 120822; 123200; 123632; 125264;
   130032].

Definition unicode_spaces : list Z :=
  [133; 160; 5760; 8192; 8193; 8194; 8195; 8196; 8197; 8198; 8199; 8200;
   8201; 8202; 8232; 8233; 8239; 8287; 12288].

(** Code points of UTF-8 bytes; [-1] stands for a truncated sequence. *)
Fixpoint decode_utf8 (l : list ascii) : list Z :=
  match l with
  | [] => []
  | b0 :: r =>
      if code b0 <? 128 then code b0 :: decode_utf8 r
      else if code b0 <? 224 then
        match r with
        | b1 :: r1 => (code b0 - 192) * 64 + (code b1 - 128) :: decode_utf8 r1
        | _ => [-1]
        end
      else if code b0 <? 240 then
        match r with
        | b1 :: b2 :: r2 =>
            (code b0 - 224) * 4096 + (code b1 - 128) * 64 + (code b2 - 128)
              :: decode_utf8 r2
        | _ => [-1]
        end
      else
        match r with
        | b1 :: b2 :: b3 :: r3 =>
            (code b0 - 240) * 262144 + (code b1 - 128) * 4096
              + (code b2 - 128) * 64 + (code b3 - 128) :: decode_utf8 r3
        | _ => [-1]
        end
  end.

(** What [float] makes of one character before parsing: ASCII stays, a
    Unicode space becomes a space, a decimal digit its ASCII digit, and
    anything else a question mark. *)
Definition to_ascii (cp : Z) : ascii :=
  if (0 <=? cp) && (cp <? 127) then ascii_of_N (Z.to_N cp)
  else if existsb (Z.eqb cp) unicode_spaces then " "%char
  else
    match find (fun z => (z <=? cp) && (cp <? z + 10)) decimal_zeros with
    | Some z => ascii_of_N (Z.to_N (48 + cp - z))
    | None => "?"%char
    end.

Definition float_of_unicode (s : string) : option float :=
  of_ascii
    (string_of_list_ascii
       (map to_ascii (decode_utf8 (list_ascii_of_string s)))).

(** [repr] with every character beyond ASCII taken as printable. *)
Definition repr_of_unicode (s : string) : string := repr_ascii s.

Definition the_libs : libs :=
  Build_libs Z (fun seed => seed) randint rand choice normal
    scaler regression train_test_split fit_transform transform fit predict
    mean_squared_error r2_score artifact dump load round_float format_float
    float_of_unicode repr_of_unicode.

End Instance.

(** ** Ranges, coercions and library contracts *)

(** The declared range of each feature, with the message of its test. *)
Record bound : Type := mk_bound { lo : float; hi : float; message : string }.

Definition bounds : list bound :=
  [ mk_bound (of_Z 1) (of_Z 10) "Bedrooms must be between 1 and 10";
    mk_bound (of_decimal false 5 (-1)) (of_Z 10)
      "Bathrooms must be between 0.5 and 10";
    mk_bound (of_Z 100) (of_Z 20000)
      "Square footage must be between 100 and 20,000";
    mk_bound (of_Z 1) (of_Z 5) "Floors must be between 1 and 5";
    mk_bound (of_Z 0) (of_Z 200) "Age must be between 0 and 200 years" ].

(** [lo <= v <= hi] *)
Definition in_range (b : bound) (v : float) : bool :=
  leb (lo b) v && leb v (hi b).

(** [v < lo or v > hi] *)
Definition violates (b : bound) (v : float) : bool :=
  ltb v (lo b) || gtb v (hi b).

(** A JSON object holding the five fields. *)
Definition has_fields (m : gmap string json) (v0 v1 v2 v3 v4 : json) : Prop :=
  m !! "bedrooms" = Some v0 /\ m !! "bathrooms" = Some v1 /\
  m !! "sqft_living" = Some v2 /\ m !! "floors" = Some v3 /\
  m !! "age" = Some v4.

(** [field not in data] for a dict. *)
Definition missing (m : gmap string json) (field : string) : bool :=
  negb (bool_decide (is_Some (m !! field))).

(** The five coercions of [predict_price], left to right. *)
Fixpoint coerce_all (L : libs) (vs : list json) : exn + list float :=
  match vs with
  | [] => inr []
  | v :: rest =>
      match py_float L v with
      | inl e => inl e
      | inr f =>
          match coerce_all L rest with
          | inl e => inl e
          | inr fs => inr (f :: fs)
          end
      end
  end.

(** What [round(x, 2)] is relied on for: it preserves order, and it
    leaves 50000.0 alone. *)
Definition round_laws (L : libs) : Prop :=
  (forall x y, leb x y = true ->
     leb (round_float L x 2) (round_float L y 2) = true) /\
  round_float L (of_Z 50000) 2 = of_Z 50000.

(** What the numpy generator is relied on for: arrays of the requested
    size, integers in [[lo, hi)], finite uniform and normal draws, choices
    among the given values. *)
Record numpy_laws (L : libs) : Prop := {
  randint_length : forall a b n r, length (np_randint L a b n r).1 = n;
  randint_range : forall a b n r z,
    a < b -> z ∈ (np_randint L a b n r).1 -> a <= z < b;
  rand_length : forall n r, length (np_rand L n r).1 = n;
  rand_finite : forall n r x, x ∈ (np_rand L n r).1 -> is_finite x = true;
  choice_length : forall l n r, l <> [] -> length (np_choice L l n r).1 = n;
  choice_elem : forall l n r x,
    l <> [] -> x ∈ (np_choice L l n r).1 -> x ∈ l;
  normal_length : forall m s n r, length (np_normal L m s n r).1 = n;
  normal_finite : forall m s n r x,
    is_finite m = true -> is_finite s = true ->
    x ∈ (np_normal L m s n r).1 -> is_finite x = true
}.

(** ** Sample requests *)

Definition record (v0 v1 v2 v3 v4 : json) : gmap string json :=
  {[ "bedrooms" := v0; "bathrooms" := v1; "sqft_living" := v2;
     "floors" := v3; "age" := v4 ]}.

(** [{"bedrooms": 3, "bathrooms": 2, "sqft_living": 1800, "floors": 1,
    "age": 10}] *)
Definition typical_request : request :=
  JsonBody (JObj (record (JInt 3) (JInt 2) (JInt 1800) (JInt 1) (JInt 10))).

(** Every field is the string "nan". *)
Definition nan_request : request :=
  JsonBody (JObj (record (JStr "nan") (JStr "nan") (JStr "nan") (JStr "nan")
                    (JStr "nan"))).

(** [{"bedrooms": null, "bathrooms": 2, "sqft_living": 1800, "floors": 1,
    "age": 10}] *)
Definition null_bedrooms_request : request :=
  JsonBody (JObj (record JNull (JInt 2) (JInt 1800) (JInt 1) (JInt 10))).

(** [{"bedrooms": 0, "bathrooms": 2, "sqft_living": 1800, "floors": 1,
    "age": 10}] *)
Definition zero_bedrooms_record : gmap string json :=
  record (JInt 0) (JInt 2) (JInt 1800) (JInt 1) (JInt 10).

(** [{"bedrooms": 3, "bathrooms": 2, "age": 10}] *)
Definition short_record : gmap string json :=
  {[ "bedrooms" := JInt 3; "bathrooms" := JInt 2; "age" := JInt 10 ]}.

(** ** Sample states *)

(** Nothing loaded, no file, as when the module has just been imported. *)
Definition fresh_globals : globals Instance.the_libs :=
  mk_globals Instance.the_libs PyNone PyNone.

Definition fresh_state : state Instance.the_libs :=
  mk_state Instance.the_libs fresh_globals ∅ 0 [].

(** A scaler that leaves features unchanged and the regression of the
    price formula. *)
Definition plain_scaler : Instance.scaler :=
  Instance.mk_scaler (replicate 5 (of_Z 0)) (replicate 5 (of_Z 1)).

Definition formula_model : Instance.regression :=
  Instance.mk_regression
    [of_Z 15000; of_Z 20000; of_Z 150; of_Z 10000; of_Z (-2000)]
    (of_Z 200000).

Definition loaded_globals : globals Instance.the_libs :=
  mk_globals Instance.the_libs (Model formula_model) (Scaler plain_scaler).

(** Both artifact files present. *)
Definition stored_state : state Instance.the_libs :=
  mk_state Instance.the_libs fresh_globals
    (<[model_path := Some (Model formula_model)]>
       (<[scaler_path := Some (Scaler plain_scaler)]> ∅)) 0 [].

(** Only the model file present. *)
Definition partial_state : state Instance.the_libs :=
  mk_state Instance.the_libs fresh_globals
    (<[model_path := Some (Model formula_model)]> ∅) 0 [].

(** ** Responses by kind *)

(** [(jsonify({"error": msg}), code)] *)
Definition error_response (code : Z) (msg : string) : response :=
  mk_response code (JObj {[ "error" := JStr msg ]}).

(** The 200 response of [predict_price] for coerced features [f0 .. f4]
    and raw prediction [y]. *)
Definition success_response (L : libs) (f0 f1 f2 f3 f4 y : float) : response :=
  mk_response 200
    (JObj
       {[ "predicted_price" := json_of_pynum (py_round L (max_50000 y) 2);
          "formatted_price" := JStr ("$" ++ format_money L (max_50000 y));
          "input_features" :=
            JObj {[ "bedrooms" := JFloat f0;
                    "bathrooms" := JFloat f1;
                    "sqft_living" := JFloat f2;
                    "floors" := JFloat f3;
                    "age" := JFloat f4 ]} ]}).

(** The request is a JSON object whose five fields coerce to
    [f0 .. f4], no value is below its minimum or above its maximum, and
    the loaded scaler and model turn the features into the raw prediction
    [y]. *)
Definition served (L : libs) (g : globals L) (req : request)
  (f0 f1 f2 f3 f4 y : float) : Prop :=
  exists m v0 v1 v2 v3 v4 sc md X ys,
    req = JsonBody (JObj m) /\
    has_fields m v0 v1 v2 v3 v4 /\
    coerce_all L [v0; v1; v2; v3; v4] = inr [f0; f1; f2; f3; f4] /\
    (forall b v, (b, v) ∈ zip bounds [f0; f1; f2; f3; f4] ->
                 violates b v = false) /\
    scaler L g = Scaler sc /\ model L g = Model md /\
    transform L sc [[f0; f1; f2; f3; f4]] = inr X /\
    predict L md X = inr (y :: ys).

(** [joblib.load] gives back what [joblib.dump] wrote. *)
Definition joblib_round_trip (L : libs) : Prop :=
  forall o, joblib_load L (joblib_dump L o) = inr o.

(** The executable instance with a regression whose [predict] rejects
    every input. *)
Definition rejecting_libs : libs :=
  Build_libs Z (fun seed => seed) Instance.randint Instance.rand
    Instance.choice Instance.normal Instance.scaler Instance.regression
    Instance.train_test_split Instance.fit_transform Instance.transform
    Instance.fit
    (fun _ _ => inl (mk_exn ValueError "Input X contains NaN or infinity."))
    Instance.mean_squared_error Instance.r2_score Instance.artifact
    Instance.dump Instance.load Instance.round_float Instance.format_float
    Instance.float_of_unicode Instance.repr_of_unicode.

(** ** More sample requests and states *)

(** [{"bedrooms": "3", "bathrooms": "2.0", "sqft_living": " 1800 ",
    "floors": true, "age": 1e1}] *)
Definition loose_record : gmap string json :=
  record (JStr "3") (JStr "2.0") (JStr " 1800 ") (JBool true)
    (JFloat (of_Z 10)).

(** The typical record with two more keys. *)
Definition wordy_record : gmap string json :=
  <["garage" := JBool true]>
    (<["note" := JStr "corner lot"]>
       (record (JInt 3) (JInt 2) (JInt 1800) (JInt 1) (JInt 10))).

(** [{"bedrooms": 0, "bathrooms": 2, "sqft_living": 1800, "floors": 1,
    "age": "old"}] *)
Definition old_record : gmap string json :=
  record (JInt 0) (JInt 2) (JInt 1800) (JInt 1) (JStr "old").

(** [{"bedrooms": 3, "bathrooms": 2, "sqft_living": "inf", "floors": 1,
    "age": 10}] *)
Definition vast_record : gmap string json :=
  record (JInt 3) (JInt 2) (JStr "inf") (JInt 1) (JInt 10).

(** A working directory with one unrelated file. *)
Definition notes_state : state Instance.the_libs :=
  mk_state Instance.the_libs fresh_globals (<["notes.txt" := None]> ∅) 0 [].

(** A new process in the directory an earlier one left: globals and
    output are reset, the files stay. *)
Definition restart (st : state Instance.the_libs) : state Instance.the_libs :=
  mk_state Instance.the_libs fresh_globals (fs Instance.the_libs st) 7 [].

Definition rejecting_state : state rejecting_libs :=
  mk_state rejecting_libs (mk_globals rejecting_libs PyNone PyNone)
    (<["notes.txt" := None]> ∅) 0 [].

(** * Properties *)

(** ** Comparisons and NaN *)

Module Float64Facts.

Lemma compare_antisym (x y : float) (c : comparison) :
SFcompare x y = Some c -> SFcompare y x = Some (CompOpp c).
Proof.
destruct x as [sx|sx| |sx mx ex], y as [sy|sy| |sy my ey]; simpl;
  try discriminate;
  try (intros [= <-]; destruct sx; try destruct sy; reflexivity).
intros [= <-]. f_equal.
destruct sx, sy; try reflexivity;
  rewrite (Z.compare_antisym ex ey);
  destruct (ex ?= ey); simpl; try reflexivity;
  rewrite ?CompOpp_involutive, Pos.compare_cont_antisym; reflexivity.
Qed.

Lemma compare_defined (x y : float) :
is_nan x = false -> is_nan y = false -> exists c, SFcompare x y = Some c.
Proof.
destruct x, y; simpl; try discriminate; intros _ _; eauto.
Qed.

Lemma compare_nan_l (y : float) : SFcompare nan y = None.
Proof. reflexivity. Qed.

Lemma compare_nan_r (x : float) : SFcompare x nan = None.
Proof. destruct x; reflexivity. Qed.

(** Every ordered comparison with NaN is false. *)
Lemma ltb_nan_l y : ltb nan y = false.
Proof. reflexivity. Qed.

Lemma ltb_nan_r x : ltb x nan = false.
Proof. unfold ltb, SFltb. now rewrite compare_nan_r. Qed.

Lemma leb_nan_l y : leb nan y = false.
Proof. reflexivity. Qed.

Lemma leb_nan_r x : leb x nan = false.
Proof. unfold leb, SFleb. now rewrite compare_nan_r. Qed.

Lemma leb_not_nan x y : leb x y = true -> is_nan x = false /\ is_nan y = false.
Proof.
destruct x, y; simpl; auto; discriminate.
Qed.

Lemma leb_ltb_false x y : leb x y = true -> ltb y x = false.
Proof.
unfold leb, ltb, SFleb, SFltb.
destruct (SFcompare x y) as [c|] eqn:E; [|discriminate].
rewrite (compare_antisym _ _ _ E). now destruct c.
Qed.

Lemma ltb_false_leb x y :
is_nan x = false -> is_nan y = false -> ltb y x = false -> leb x y = true.
Proof.
intros Hx Hy. unfold leb, ltb, SFleb, SFltb.
destruct (compare_defined x y Hx Hy) as [c E].
rewrite E, (compare_antisym _ _ _ E). now destruct c.
Qed.

Lemma ltb_negb_leb x y :
is_nan x = false -> is_nan y = false -> ltb y x = negb (leb x y).
Proof.
intros Hx Hy. unfold leb, ltb, SFleb, SFltb.
destruct (compare_defined x y Hx Hy) as [c E].
rewrite E, (compare_antisym _ _ _ E). now destruct c.
Qed.

End Float64Facts.

Import Float64Facts.

Lemma in_range_not_violates (b : bound) (v : float) :
  in_range b v = true -> violates b v = false.
Proof.
  unfold in_range, violates, gtb.
  intros [H1 H2]%andb_true_iff.
  now rewrite (leb_ltb_false _ _ H1), (leb_ltb_false _ _ H2).
Qed.

(** For numbers, violating a bound is the same as lying outside the
    range; NaN does neither. *)
Lemma violates_iff_outside (b : bound) (v : float) :
  is_nan (lo b) = false -> is_nan (hi b) = false -> is_nan v = false ->
  violates b v = negb (in_range b v).
Proof.
  intros Hl Hh Hv. unfold in_range, violates, gtb.
  rewrite (ltb_negb_leb (lo b) v Hl Hv), (ltb_negb_leb v (hi b) Hv Hh).
  now rewrite negb_andb.
Qed.

Lemma nan_violates_nothing (b : bound) : violates b nan = false.
Proof.
  unfold violates, gtb. now rewrite ltb_nan_l, ltb_nan_r.
Qed.

Lemma nan_in_no_range (b : bound) : in_range b nan = false.
Proof.
  unfold in_range. now rewrite leb_nan_r.
Qed.

(** ** Searching a list from the left *)

Section Find.

Context {A : Type} (P : A -> bool).

Lemma find_first (l : list A) :
  (exists x, x ∈ l /\ P x = true) ->
  exists pre x post,
    l = (pre ++ x :: post)%list /\ (forall y, y ∈ pre -> P y = false) /\
    P x = true /\ find P l = Some x.
Proof.
  induction l as [|a l IH]; intros (x & Hin & Hx).
  - inversion Hin.
  - destruct (P a) eqn:Ha.
    + exists [], a, l. simpl. rewrite Ha.
      repeat split; auto. intros y Hy. inversion Hy.
    + destruct IH as (pre & x' & post & -> & Hpre & Hx' & Hfind).
      { apply elem_of_cons in Hin as [->|Hin]; [congruence|eauto]. }
      exists (a :: pre), x', post. simpl. rewrite Ha.
      repeat split; auto.
      intros y [->|Hy]%elem_of_cons; auto.
Qed.

Lemma find_nowhere (l : list A) :
  (forall x, x ∈ l -> P x = false) -> find P l = None.
Proof.
  induction l as [|a l IH]; intros H; simpl; [reflexivity|].
  rewrite (H a) by (apply elem_of_cons; auto).
  apply IH. intros x Hx. apply H. apply elem_of_cons; auto.
Qed.

End Find.

(** ** The steps of [predict_price] *)

Lemma missing_true m field : missing m field = true <-> m !! field = None.
Proof.
  unfold missing. rewrite negb_true_iff, bool_decide_eq_false.
  rewrite <- eq_None_not_Some. reflexivity.
Qed.

Lemma missing_false m field : missing m field = false <-> is_Some (m !! field).
Proof.
  unfold missing. rewrite negb_false_iff, bool_decide_eq_true. reflexivity.
Qed.

Lemma check_required_find (m : gmap string json) (fields : list string) :
  check_required (JObj m) fields =
  match find (missing m) fields with
  | Some field =>
      Return (jsonify_status
                (error_body ("Missing required field: " ++ field)) 400)
  | None => Next tt
  end.
Proof.
  induction fields as [|f fields IH]; simpl; [reflexivity|].
  fold (missing m f). destruct (missing m f); [reflexivity|exact IH].
Qed.

Lemma validate_ranges_find (f0 f1 f2 f3 f4 : float) :
  validate_ranges f0 f1 f2 f3 f4 =
  match find (fun bv => violates bv.1 bv.2) (zip bounds [f0; f1; f2; f3; f4]) with
  | Some bv => reject (message bv.1)
  | None => Next tt
  end.
Proof.
  unfold validate_ranges, violates, bounds.
  cbn [zip zip_with find fst snd lo hi message].
  repeat match goal with
         | |- context [if ?c then _ else _] => destruct c; try reflexivity
         end.
Qed.

Lemma coerce_all_five (L : libs) (v0 v1 v2 v3 v4 : json)
  (f0 f1 f2 f3 f4 : float) :
  coerce_all L [v0; v1; v2; v3; v4] = inr [f0; f1; f2; f3; f4] <->
  py_float L v0 = inr f0 /\ py_float L v1 = inr f1 /\ py_float L v2 = inr f2 /\
  py_float L v3 = inr f3 /\ py_float L v4 = inr f4.
Proof.
  cbn [coerce_all].
  destruct (py_float L v0), (py_float L v1), (py_float L v2), (py_float L v3),
    (py_float L v4); split; intros H; try discriminate;
    try (destruct H as (? & ? & ? & ? & ?); discriminate).
  - injection H as <- <- <- <- <-. auto.
  - destruct H as (H0 & H1 & H2 & H3 & H4).
    injection H0 as <-. injection H1 as <-. injection H2 as <-.
    injection H3 as <-. injection H4 as <-. reflexivity.
Qed.

Section Steps.

Context (L : libs) (g : globals L) (m : gmap string json).
Context (v0 v1 v2 v3 v4 : json).
Hypothesis Hfields : has_fields m v0 v1 v2 v3 v4.

Lemma check_required_present : check_required (JObj m) feature_names = Next tt.
Proof.
  destruct Hfields as (H0 & H1 & H2 & H3 & H4).
  rewrite check_required_find, find_nowhere; [reflexivity|].
  intros f Hf. apply missing_false.
  unfold feature_names in Hf.
  repeat (apply elem_of_cons in Hf as [->|Hf]; [eauto|]).
  inversion Hf.
Qed.

(** With the five fields present, the handler is the five coercions
    followed by the range tests and the pipeline. *)
Lemma predict_try_extract :
  predict_try L g (JsonBody (JObj m)) =
  (do f0 <- lift (py_float L v0);
   do f1 <- lift (py_float L v1);
   do f2 <- lift (py_float L v2);
   do f3 <- lift (py_float L v3);
   do f4 <- lift (py_float L v4);
   do _ <- validate_ranges f0 f1 f2 f3 f4;
   predict_pipeline L g f0 f1 f2 f3 f4).
Proof.
  unfold predict_try. cbn [get_json bind].
  rewrite check_required_present. cbn [bind].
  destruct Hfields as (H0 & H1 & H2 & H3 & H4).
  unfold extract, py_getitem. rewrite H0, H1, H2, H3, H4. reflexivity.
Qed.

Lemma predict_try_coerced (f0 f1 f2 f3 f4 : float) :
  coerce_all L [v0; v1; v2; v3; v4] = inr [f0; f1; f2; f3; f4] ->
  predict_try L g (JsonBody (JObj m)) =
  (do _ <- validate_ranges f0 f1 f2 f3 f4;
   predict_pipeline L g f0 f1 f2 f3 f4).
Proof.
  intros (H0 & H1 & H2 & H3 & H4)%coerce_all_five.
  rewrite predict_try_extract, H0, H1, H2, H3, H4. reflexivity.
Qed.

(** The first coercion that fails raises its exception out of the
    [try] block. *)
Lemma predict_try_coercion_error (e : exn) :
  coerce_all L [v0; v1; v2; v3; v4] = inl e ->
  predict_try L g (JsonBody (JObj m)) = Raise e.
Proof.
  rewrite predict_try_extract. cbn [coerce_all].
  destruct (py_float L v0); [intros [= ->]; reflexivity|].
  destruct (py_float L v1); [intros [= ->]; reflexivity|].
  destruct (py_float L v2); [intros [= ->]; reflexivity|].
  destruct (py_float L v3); [intros [= ->]; reflexivity|].
  destruct (py_float L v4); [intros [= ->]; reflexivity|].
  discriminate.
Qed.

End Steps.

(** ** Missing fields *)

(** C4. A request whose JSON object lacks at least one of the five feature
    names is answered with status 400 and the message
    "Missing required field: <field>", where <field> is the first missing
    name in the order bedrooms, bathrooms, sqft_living, floors, age. *)
Theorem missing_field_rejected (L : libs) (g : globals L)
  (m : gmap string json) :
  (exists f, f ∈ feature_names /\ m !! f = None) ->
  exists pre field post,
    feature_names = (pre ++ field :: post)%list /\
    (forall f, f ∈ pre -> is_Some (m !! f)) /\
    m !! field = None /\
    predict_price L g (JsonBody (JObj m)) =
      mk_response 400
        (JObj {[ "error" := JStr ("Missing required field: " ++ field) ]}).
Proof.
  intros (f & Hin & Hf).
  destruct (find_first (missing m) feature_names)
    as (pre & field & post & Heq & Hpre & Hfield & Hfind).
  { exists f. split; [exact Hin|]. now apply missing_true. }
  exists pre, field, post. repeat split.
  - exact Heq.
  - intros f' Hf'. apply missing_false. now apply Hpre.
  - now apply missing_true.
  - unfold predict_price, predict_try. cbn [get_json bind].
    rewrite check_required_find, Hfind. reflexivity.
Qed.

(** ** Range tests *)

(** C3. When the five fields are present and coerce to floats, and some
    value is below its minimum or above its maximum, the answer is one
    400 response carrying the message of the first violated bound in the
    order bedrooms, bathrooms, sqft_living, floors, age; the message
    states the range.  With bedrooms = 0 the message is
    "Bedrooms must be between 1 and 10". *)
Theorem first_violation_reported (L : libs) (g : globals L)
  (m : gmap string json) (v0 v1 v2 v3 v4 : json) (f0 f1 f2 f3 f4 : float) :
  has_fields m v0 v1 v2 v3 v4 ->
  coerce_all L [v0; v1; v2; v3; v4] = inr [f0; f1; f2; f3; f4] ->
  (exists b v, (b, v) ∈ zip bounds [f0; f1; f2; f3; f4] /\
               violates b v = true) ->
  (exists pre b v post,
     zip bounds [f0; f1; f2; f3; f4] = (pre ++ (b, v) :: post)%list /\
     (forall b' v', (b', v') ∈ pre -> violates b' v' = false) /\
     violates b v = true /\
     predict_price L g (JsonBody (JObj m)) =
       mk_response 400 (JObj {[ "error" := JStr (message b) ]})) /\
  (f0 = of_Z 0 ->
   predict_price L g (JsonBody (JObj m)) =
     mk_response 400
       (JObj {[ "error" := JStr "Bedrooms must be between 1 and 10" ]})).
Proof.
  intros Hfields Hco Hviol.
  assert (Htry := predict_try_coerced L g m _ _ _ _ _ Hfields _ _ _ _ _ Hco).
  split.
  - destruct (find_first (fun bv => violates bv.1 bv.2)
                (zip bounds [f0; f1; f2; f3; f4]))
      as (pre & [b v] & post & Heq & Hpre & Hbv & Hfind).
    { destruct Hviol as (b & v & Hin & Hv). exists (b, v). auto. }
    exists pre, b, v, post. repeat split; auto.
    + intros b' v' Hin. exact (Hpre (b', v') Hin).
    + unfold predict_price. rewrite Htry, validate_ranges_find, Hfind.
      reflexivity.
  - intros ->. unfold predict_price. rewrite Htry. reflexivity.
Qed.

(** ** The price floor *)

(** [max] keeps a NaN prediction: no comparison replaces it. *)
Lemma max_50000_nan : max_50000 nan = PFloat nan.
Proof. reflexivity. Qed.

Lemma round_keeps_floor (L : libs) (y : float) :
  round_laws L -> is_nan y = false -> ltb y (of_Z 50000) = false ->
  leb (of_Z 50000) (round_float L y 2) = true.
Proof.
  intros [Hmono Hfix] Hy Hlt.
  assert (Hle : leb (of_Z 50000) y = true) by (apply ltb_false_leb; auto).
  rewrite <- Hfix. now apply Hmono.
Qed.

(** C1. When the five fields coerce to values inside their declared
    ranges, and the loaded scaler and model turn them into a raw
    prediction [y] that is a number, the response is a 200 whose
    predicted_price is at least 50000: it is the integer 50000 when
    [y < 50000], and [round(y, 2)], which is at least 50000, otherwise. *)
Theorem in_range_price_at_least_50000 (L : libs) (g : globals L)
  (m : gmap string json) (v0 v1 v2 v3 v4 : json) (f0 f1 f2 f3 f4 : float)
  (sc : scaler_t L) (md : model_t L) (X : matrix) (y : float) (ys : vector) :
  round_laws L ->
  has_fields m v0 v1 v2 v3 v4 ->
  coerce_all L [v0; v1; v2; v3; v4] = inr [f0; f1; f2; f3; f4] ->
  (forall b v, (b, v) ∈ zip bounds [f0; f1; f2; f3; f4] ->
               in_range b v = true) ->
  scaler L g = Scaler sc ->
  model L g = Model md ->
  transform L sc [[f0; f1; f2; f3; f4]] = inr X ->
  predict L md X = inr (y :: ys) ->
  is_nan y = false ->
  exists d : gmap string json,
    predict_price L g (JsonBody (JObj m)) = mk_response 200 (JObj d) /\
    (ltb y (of_Z 50000) = true ->
     d !! "predicted_price" = Some (JInt 50000)) /\
    (ltb y (of_Z 50000) = false ->
     d !! "predicted_price" = Some (JFloat (round_float L y 2)) /\
     leb (of_Z 50000) (round_float L y 2) = true).
Proof.
  intros HL Hfields Hco Hin Hsc Hmd Htr Hpr Hy.
  unfold predict_price.
  rewrite (predict_try_coerced L g m _ _ _ _ _ Hfields _ _ _ _ _ Hco).
  rewrite validate_ranges_find, find_nowhere.
  2:{ intros [b v] Hbv. apply in_range_not_violates. now apply Hin. }
  cbn [bind]. unfold predict_pipeline, call_transform, call_predict.
  rewrite Hsc, Htr. cbn [lift bind]. rewrite Hmd, Hpr. cbn [lift bind index0].
  eexists. split; [reflexivity|].
  rewrite lookup_insert_eq. unfold max_50000, gtb.
  split; intros Hlt; rewrite Hlt; cbn [py_round json_of_pynum].
  - reflexivity.
  - split; [reflexivity|]. now apply round_keeps_floor.
Qed.

Lemma record_has_fields (v0 v1 v2 v3 v4 : json) :
  has_fields (record v0 v1 v2 v3 v4) v0 v1 v2 v3 v4.
Proof.
  unfold has_fields, record. repeat split; by simplify_map_eq.
Qed.

(** ** NaN *)

(** C9. The request whose five fields are the string "nan" is accepted by
    the validation although no value lies in its declared range: [float]
    turns "nan" (and "NaN") into NaN, both comparisons of every range test
    are false on NaN, and the handler goes on to the scaler with five NaN
    features. *)
Theorem nan_passes_validation (L : libs) (g : globals L) :
  py_float L (JStr "nan") = inr nan /\
  py_float L (JStr "NaN") = inr nan /\
  (forall b, ltb nan (lo b) = false /\ gtb nan (hi b) = false /\
             in_range b nan = false) /\
  validate_ranges nan nan nan nan nan = Next tt /\
  predict_try L g nan_request = predict_pipeline L g nan nan nan nan nan /\
  predict_pipeline L g nan nan nan nan nan =
    (do features_scaled <- call_transform L (scaler L g)
                             [[nan; nan; nan; nan; nan]];
     do ys <- call_predict L (model L g) features_scaled;
     do prediction <- index0 ys;
     Next (jsonify
             {[ "predicted_price" :=
                  json_of_pynum (py_round L (max_50000 prediction) 2);
                "formatted_price" :=
                  JStr ("$" ++ format_money L (max_50000 prediction));
                "input_features" :=
                  JObj (record (JFloat nan) (JFloat nan) (JFloat nan)
                          (JFloat nan) (JFloat nan)) ]})).
Proof.
  split; [reflexivity|]. split; [reflexivity|]. split; [|split; [|split]].
  - intros b. unfold gtb. rewrite ltb_nan_l, ltb_nan_r, nan_in_no_range. auto.
  - reflexivity.
  - unfold nan_request.
    rewrite (predict_try_coerced L g _ _ _ _ _ _ (record_has_fields _ _ _ _ _)
               nan nan nan nan nan) by reflexivity.
    reflexivity.
  - reflexivity.
Qed.

(** ** Exceptions *)

Lemma check_required_container (data : json) (c : string -> bool)
  (fields : list string) :
  (forall f, py_contains data f = inr (c f)) ->
  check_required data fields =
  match find (fun f => negb (c f)) fields with
  | Some field =>
      Return (jsonify_status
                (error_body ("Missing required field: " ++ field)) 400)
  | None => Next tt
  end.
Proof.
  intros Hc. induction fields as [|f fields IH]; simpl; [reflexivity|].
  rewrite Hc. cbn [lift bind]. destruct (negb (c f)); [reflexivity|exact IH].
Qed.

Lemma coerce_all_null (L : libs) (pre post : list json) :
  (forall v, v ∈ pre -> exists f, py_float L v = inr f) ->
  coerce_all L (pre ++ JNull :: post) =
  inl (mk_exn TypeError
         "float() argument must be a string or a real number, not 'NoneType'").
Proof.
  induction pre as [|v pre IH]; intros Hpre; [reflexivity|].
  cbn [app coerce_all].
  destruct (Hpre v) as [f ->]; [apply elem_of_cons; auto|].
  rewrite IH; [reflexivity|].
  intros v' Hv'. apply Hpre, elem_of_cons. auto.
Qed.

(** C10. In [predict_price] an exception is answered with 400 exactly when
    it is a [ValueError]; every other exception is answered with 500 and
    a message that starts with "Prediction failed: ".  A required field
    that is null raises such a [TypeError] in [float], and so does a body
    that is null, a boolean or a number in the membership test; a list or
    a string body either misses a field name (400, no exception) or
    raises the [TypeError] of a string subscript. *)
Theorem only_value_error_is_400 (L : libs) (g : globals L) :
  (forall req e, predict_try L g req = Raise e ->
     (is_ValueError e = true ->
      predict_price L g req =
        mk_response 400
          (JObj {[ "error" := JStr ("Invalid input data: " ++ exn_str e) ]})) /\
     (is_ValueError e = false ->
      predict_price L g req =
        mk_response 500
          (JObj {[ "error" := JStr ("Prediction failed: " ++ exn_str e) ]}))) /\
  (forall m v0 v1 v2 v3 v4 pre post,
     has_fields m v0 v1 v2 v3 v4 ->
     [v0; v1; v2; v3; v4] = (pre ++ JNull :: post)%list ->
     (forall v, v ∈ pre -> exists f, py_float L v = inr f) ->
     predict_price L g (JsonBody (JObj m)) =
       mk_response 500
         (JObj {[ "error" := JStr
            "Prediction failed: float() argument must be a string or a real number, not 'NoneType'" ]})) /\
  (forall data,
     match data with
     | JObj _ => True
     | JArr _ | JStr _ =>
         (exists field, field ∈ feature_names /\
            py_contains data field = inr false /\
            predict_price L g (JsonBody data) =
              mk_response 400
                (JObj {[ "error" := JStr ("Missing required field: " ++ field) ]}))
         \/
         (exists msg,
            py_getitem L data "bedrooms" = inl (mk_exn TypeError msg) /\
            predict_price L g (JsonBody data) =
              mk_response 500
                (JObj {[ "error" := JStr ("Prediction failed: " ++ msg) ]}))
     | _ =>
         predict_price L g (JsonBody data) =
           mk_response 500
             (JObj {[ "error" := JStr
                ("Prediction failed: argument of type '" ++ type_name data
                   ++ "' is not iterable") ]})
     end).
Proof.
  split; [|split].
  - intros req e He. unfold predict_price, predict_except. rewrite He.
    split; intros ->; reflexivity.
  - intros m v0 v1 v2 v3 v4 pre post Hfields Heq Hpre.
    unfold predict_price.
    rewrite (predict_try_coercion_error L g m _ _ _ _ _ Hfields
               (mk_exn TypeError
                  "float() argument must be a string or a real number, not 'NoneType'")).
    + reflexivity.
    + rewrite Heq. now apply coerce_all_null.
  - intros data.
    assert (Hcontainer : forall c,
      (forall f, py_contains data f = inr (c f)) ->
      forall msg, py_getitem L data "bedrooms" = inl (mk_exn TypeError msg) ->
      (exists field, field ∈ feature_names /\
         py_contains data field = inr false /\
         predict_price L g (JsonBody data) =
           mk_response 400
             (JObj {[ "error" := JStr ("Missing required field: " ++ field) ]}))
      \/
      (exists msg,
         py_getitem L data "bedrooms" = inl (mk_exn TypeError msg) /\
         predict_price L g (JsonBody data) =
           mk_response 500
             (JObj {[ "error" := JStr ("Prediction failed: " ++ msg) ]}))).
    { intros c Hc msg Hget. unfold predict_price, predict_try.
      cbn [get_json bind].
      rewrite (check_required_container data c feature_names Hc).
      destruct (find (fun f => negb (c f)) feature_names) as [field|] eqn:Hfind.
      - left. exists field.
        apply find_some in Hfind as [Hin Hneg].
        split; [now apply list_elem_of_In|].
        split; [|reflexivity].
        rewrite Hc. f_equal. now apply negb_true_iff.
      - right. exists msg. split; [exact Hget|].
        cbn [bind]. unfold extract. rewrite Hget. reflexivity. }
    destruct data; try exact I; try reflexivity;
      (eapply Hcontainer; [intros f; reflexivity|reflexivity]).
Qed.

(** C2, at the request whose bedrooms field is null: all five fields are
    present and one is not coercible to a float, and the answer is 500,
    not 400. *)
Theorem null_bedrooms_answered_500 (L : libs) (g : globals L) :
  py_float L JNull =
    inl (mk_exn TypeError
           "float() argument must be a string or a real number, not 'NoneType'") /\
  predict_price L g null_bedrooms_request =
    mk_response 500
      (JObj {[ "error" := JStr
         "Prediction failed: float() argument must be a string or a real number, not 'NoneType'" ]}).
Proof.
  split; [reflexivity|].
  unfold predict_price, null_bedrooms_request.
  rewrite (predict_try_extract L g _ _ _ _ _ _ (record_has_fields _ _ _ _ _)).
  reflexivity.
Qed.

(** A field that is a string [float] cannot parse is answered with 400 when
    the fields before it coerce. *)
Lemma unparsable_string_answered_400 (L : libs) (g : globals L)
  (m : gmap string json) (v0 v1 v2 v3 v4 : json) (e : exn) :
  has_fields m v0 v1 v2 v3 v4 ->
  coerce_all L [v0; v1; v2; v3; v4] = inl e ->
  is_ValueError e = true ->
  predict_price L g (JsonBody (JObj m)) =
    mk_response 400
      (JObj {[ "error" := JStr ("Invalid input data: " ++ exn_str e) ]}).
Proof.
  intros Hfields Hco He. unfold predict_price, predict_except.
  rewrite (predict_try_coercion_error L g m _ _ _ _ _ Hfields e Hco), He.
  reflexivity.
Qed.

(** ** Model information *)

(** C6. [model_info] answers 500 exactly when the global [model] is
    [None]; in every other state, in particular whenever model and scaler
    are loaded, it answers 200 with the model type, the five feature
    names and their descriptions. *)
Theorem model_info_fails_iff_unloaded (L : libs) (g : globals L) :
  (status (model_info L g) = 500 <-> model L g = PyNone) /\
  (model L g = PyNone ->
   model_info L g =
     mk_response 500 (JObj {[ "error" := JStr "Model not loaded" ]})) /\
  (model L g <> PyNone ->
   model_info L g =
     mk_response 200
       (JObj {[ "model_type" := JStr "Linear Regression";
                "features" :=
                  JArr [JStr "bedrooms"; JStr "bathrooms"; JStr "sqft_living";
                        JStr "floors"; JStr "age"];
                "feature_descriptions" :=
                  JObj {[ "bedrooms" := JStr "Number of bedrooms (1-10)";
                          "bathrooms" := JStr "Number of bathrooms (0.5-10)";
                          "sqft_living" :=
                            JStr "Living area in square feet (100-20,000)";
                          "floors" := JStr "Number of floors (1-5)";
                          "age" := JStr "Age of the house in years (0-200)" ]} ]})).
Proof.
  unfold model_info.
  destruct (model L g) eqn:Hm; cbn [status jsonify jsonify_status];
    (split; [split; [discriminate || reflexivity|discriminate || reflexivity]|]);
    split; intros H; try discriminate; try reflexivity; now destruct H.
Qed.

(** ** Operations that never produce NaN *)

Section NeverNaN.















End NeverNaN.

(** ** Synthetic prices *)






Section Synthesizer.

Context (L : libs) (HL : numpy_laws L).

(** What the generator's contract gives for the five feature columns. *)
Lemma sample_features_columns (r0 : rng_t L) :
  let c := (sample_features L r0).1 in
  (length (bedrooms c) = n_samples /\ length (bathrooms c) = n_samples /\
   length (sqft_living c) = n_samples /\ length (floors c) = n_samples /\
   length (age c) = n_samples) /\
  (forall b, b ∈ bedrooms c -> 1 <= b < 6) /\
  (forall x, x ∈ bathrooms c ->
     exists k u, 1 <= k < 4 /\ is_finite u = true /\ x = add (of_Z k) u) /\
  (forall s, s ∈ sqft_living c -> 800 <= s < 5000) /\
  (forall f, f ∈ floors c -> f ∈ floor_values) /\
  (forall a, a ∈ age c -> 0 <= a < 50).
Proof.
  unfold sample_features.
  destruct (np_randint L 1 6 n_samples r0) as [bed r1] eqn:E1.
  destruct (np_randint L 1 4 n_samples r1) as [bi r2] eqn:E2.
  destruct (np_rand L n_samples r2) as [bf r3] eqn:E3.
  destruct (np_randint L 800 5000 n_samples r3) as [sq r4] eqn:E4.
  destruct (np_choice L floor_values n_samples r4) as [fl r5] eqn:E5.
  destruct (np_randint L 0 50 n_samples r5) as [ag r6] eqn:E6.
  cbn [fst bedrooms bathrooms sqft_living floors age].
  assert (Hbed : bed = (np_randint L 1 6 n_samples r0).1) by now rewrite E1.
  assert (Hbi : bi = (np_randint L 1 4 n_samples r1).1) by now rewrite E2.
  assert (Hbf : bf = (np_rand L n_samples r2).1) by now rewrite E3.
  assert (Hsq : sq = (np_randint L 800 5000 n_samples r3).1) by now rewrite E4.
  assert (Hfl : fl = (np_choice L floor_values n_samples r4).1)
    by now rewrite E5.
  assert (Hag : ag = (np_randint L 0 50 n_samples r5).1) by now rewrite E6.
  split; [repeat split|split; [|split; [|split; [|split]]]].
  - subst bed. apply (randint_length L HL).
  - rewrite length_zip_with. subst bi bf.
    rewrite (randint_length L HL), (rand_length L HL). apply Nat.min_id.
  - subst sq. apply (randint_length L HL).
  - subst fl. now apply (choice_length L HL).
  - subst ag. apply (randint_length L HL).
  - intros b Hb. subst bed. eapply (randint_range L HL); [lia|eassumption].
  - intros x (k & u & -> & Hk & Hu)%elem_of_zip_with. exists k, u.
    split; [|split; [|reflexivity]].
    + subst bi. eapply (randint_range L HL); [lia|eassumption].
    + subst bf. eapply (rand_finite L HL); eassumption.
  - intros s Hs. subst sq. eapply (randint_range L HL); [lia|eassumption].
  - intros f Hf. subst fl.
    eapply (choice_elem L HL); [discriminate|eassumption].
  - intros a Ha. subst ag. eapply (randint_range L HL); [lia|eassumption].
Qed.


End Synthesizer.

(** ** Training and loading *)

Section Lifecycle.

Context (L : libs).

#[local] Abbreviation fitted_globals :=
  (mk_globals L (Model (fitted_model L)) (Scaler (fitted_scaler L))).

(** The seed makes the data independent of the generator at the call. *)
Lemma create_sample_data_seeded (r r' : rng_t L) :
  create_sample_data L r = create_sample_data L r'.
Proof. reflexivity. Qed.

Lemma train_model_done (st st' : state L) :
  train_model L st = (st', Done) ->
  mem L st' = fitted_globals /\
  fs L st' =
    <[scaler_path := joblib_dump L (Scaler (fitted_scaler L))]>
      (<[model_path := joblib_dump L (Model (fitted_model L))]> (fs L st)) /\
  rng L st' = (create_sample_data L (rng L st)).2.
Proof.
  unfold train_model, fitted_model, fitted_scaler, training_data.
  rewrite (create_sample_data_seeded (rng L st) (np_seed L 42)).
  destruct (create_sample_data L (np_seed L 42)) as [df r].
  cbn [fst snd].
  destruct (split_data L df) as [[[X_train X_test] y_train] y_test].
  destruct (fit_transform L X_train) as [sc X_train_scaled].
  destruct (transform L sc X_test) as [e|X_test_scaled]; [discriminate|].
  destruct (predict L _ X_test_scaled) as [e|y_pred]; [discriminate|].
  intros [= <-]. auto.
Qed.

Lemma train_model_outcome (st1 st2 : state L) :
  (train_model L st1).2 = (train_model L st2).2.
Proof.
  unfold train_model.
  rewrite (create_sample_data_seeded (rng L st1) (rng L st2)).
  destruct (create_sample_data L (rng L st2)) as [df r].
  destruct (split_data L df) as [[[X_train X_test] y_train] y_test].
  destruct (fit_transform L X_train) as [sc X_train_scaled].
  destruct (transform L sc X_test) as [e|X_test_scaled]; [reflexivity|].
  destruct (predict L _ X_test_scaled) as [e|y_pred]; reflexivity.
Qed.

(** However [train_model] ends, the global [scaler] holds a fitted scaler:
    it is assigned before [model]. *)
Lemma train_model_sets_scaler (st : state L) :
  scaler L (mem L (train_model L st).1) <> PyNone.
Proof.
  unfold train_model.
  destruct (create_sample_data L (rng L st)) as [df r].
  destruct (split_data L df) as [[[X_train X_test] y_train] y_test].
  destruct (fit_transform L X_train) as [sc X_train_scaled].
  destruct (transform L sc X_test) as [e|X_test_scaled]; [discriminate|].
  destruct (predict L _ X_test_scaled) as [e|y_pred]; discriminate.
Qed.

Lemma path_exists_lookup (path : string) (st : state L) :
  path_exists L path st = true <-> is_Some (fs L st !! path).
Proof. unfold path_exists. apply bool_decide_eq_true. Qed.

(** C5. [load_model] reads the two artifact files, and nothing else,
    exactly when both exist: it then sets the globals to what
    [joblib.load] returns and leaves files and generator alone.  In every
    other case, a single existing file included, it prints that no model
    was found and runs [train_model], whose completion leaves the freshly
    fitted pair in the globals and in both files. *)
Theorem load_model_reads_iff_both_exist (st : state L) :
  (path_exists L model_path st = true ->
   path_exists L scaler_path st = true ->
   exists cm cs,
     fs L st !! model_path = Some cm /\ fs L st !! scaler_path = Some cs /\
     load_model L st =
       match joblib_load L cm with
       | inl e => (st, Raised e)
       | inr m =>
           match joblib_load L cs with
           | inl e => (set_model L m st, Raised e)
           | inr sc =>
               (print L "Model loaded successfully!"
                  (set_scaler L sc (set_model L m st)), Done)
           end
       end /\
     forall st', load_model L st = (st', Done) ->
       exists m sc,
         joblib_load L cm = inr m /\ joblib_load L cs = inr sc /\
         mem L st' = mk_globals L m sc /\
         fs L st' = fs L st /\ rng L st' = rng L st) /\
  (path_exists L model_path st && path_exists L scaler_path st = false ->
   load_model L st =
     train_model L
       (print L "No saved model found. Training new model..." st) /\
   forall st', load_model L st = (st', Done) ->
     mem L st' = fitted_globals /\
     fs L st' !! model_path = Some (joblib_dump L (Model (fitted_model L))) /\
     fs L st' !! scaler_path = Some (joblib_dump L (Scaler (fitted_scaler L))) /\
     path_exists L model_path st' = true /\
     path_exists L scaler_path st' = true).
Proof.
  split.
  - intros Hm Hs. unfold load_model. rewrite Hm, Hs. cbn [andb].
    apply path_exists_lookup in Hm as [cm Hcm].
    apply path_exists_lookup in Hs as [cs Hcs].
    exists cm, cs. unfold load_file. cbn [fs set_model].
    rewrite Hcm, Hcs.
    split; [reflexivity|]. split; [reflexivity|]. split; [reflexivity|].
    intros st'.
    destruct (joblib_load L cm) as [e|m]; [discriminate|].
    destruct (joblib_load L cs) as [e|sc]; [discriminate|].
    intros [= <-]. exists m, sc. auto.
  - intros Hnot. unfold load_model. rewrite Hnot.
    split; [reflexivity|].
    intros st' Hdone.
    apply train_model_done in Hdone as (Hmem & Hfs & _).
    assert (Hneq : scaler_path <> model_path) by discriminate.
    split; [exact Hmem|].
    assert (H1 : fs L st' !! model_path =
                 Some (joblib_dump L (Model (fitted_model L))))
      by (rewrite Hfs; by simplify_map_eq).
    assert (H2 : fs L st' !! scaler_path =
                 Some (joblib_dump L (Scaler (fitted_scaler L))))
      by (rewrite Hfs; by simplify_map_eq).
    split; [exact H1|]. split; [exact H2|].
    split; apply path_exists_lookup; [rewrite H1|rewrite H2]; eauto.
Qed.

(** C7. Training does not depend on the state it starts from: two runs
    build the same data frame and the same split, end the same way, and,
    when they complete, leave the same fitted scaler and model in the
    globals and in the artifact files; a second run after a first one
    rewrites the files with the same content. *)
Theorem training_is_deterministic (st1 st2 : state L) :
  (create_sample_data L (rng L st1)).1 = (create_sample_data L (rng L st2)).1 /\
  split_data L (create_sample_data L (rng L st1)).1 =
    split_data L (create_sample_data L (rng L st2)).1 /\
  (train_model L st1).2 = (train_model L st2).2 /\
  (forall st1' st2',
     train_model L st1 = (st1', Done) -> train_model L st2 = (st2', Done) ->
     mem L st1' = mem L st2' /\
     fs L st1' !! model_path = fs L st2' !! model_path /\
     fs L st1' !! scaler_path = fs L st2' !! scaler_path) /\
  (forall st1',
     train_model L st1 = (st1', Done) ->
     exists st1'',
       train_model L st1' = (st1'', Done) /\
       mem L st1'' = mem L st1' /\ fs L st1'' = fs L st1').
Proof.
  split; [reflexivity|]. split; [reflexivity|].
  split; [apply train_model_outcome|]. split.
  - intros st1' st2' H1 H2.
    apply train_model_done in H1 as (M1 & F1 & _).
    apply train_model_done in H2 as (M2 & F2 & _).
    rewrite M1, M2, F1, F2. split; [reflexivity|].
    split; by simplify_map_eq.
  - intros st1' H1.
    pose proof (train_model_outcome st1' st1) as Hout.
    rewrite H1 in Hout. cbn [snd] in Hout.
    destruct (train_model L st1') as [st1'' o] eqn:H2.
    cbn [snd] in Hout. subst o. exists st1''. split; [reflexivity|].
    apply train_model_done in H1 as (M1 & F1 & _).
    apply train_model_done in H2 as (M2 & F2 & _).
    split; [now rewrite M1, M2|].
    rewrite F2, F1. apply map_eq. intros k.
    destruct (decide (k = scaler_path)) as [->|]; [by simplify_map_eq|].
    destruct (decide (k = model_path)) as [->|]; by simplify_map_eq.
Qed.

End Lifecycle.

(** ** The executable instance meets the contracts *)

Module InstanceFacts.

Import Instance.

Lemma lcg_range (g : Z) : 0 <= lcg g < 2 ^ 64.
Proof. unfold lcg. apply Z.mod_pos_bound. lia. Qed.

Lemma draw_length {A : Type} (pick : Z -> A) (n : nat) (g : Z) :
  length (draw pick n g).1 = n.
Proof.
  revert g. induction n as [|n IH]; intros g; [reflexivity|].
  cbn [draw]. specialize (IH (lcg g)).
  destruct (draw pick n (lcg g)) as [l g'']. cbn [fst length] in *.
  now rewrite IH.
Qed.

Lemma draw_elem {A : Type} (pick : Z -> A) (n : nat) (g : Z) (x : A) :
  x ∈ (draw pick n g).1 -> exists u, 0 <= u /\ x = pick u.
Proof.
  revert g. induction n as [|n IH]; intros g; cbn [draw].
  - intros H. inversion H.
  - specialize (IH (lcg g)).
    destruct (draw pick n (lcg g)) as [l g'']. cbn [fst] in *.
    intros [->|Hx]%elem_of_cons; [|auto].
    exists (lcg g / 2 ^ 33). split; [|reflexivity].
    pose proof (lcg_range g). apply Z.div_pos; lia.
Qed.

Lemma nth_mod_elem (l : vector) (d : float) (u : Z) :
  l <> [] -> nth (Z.to_nat (u mod Z.of_nat (length l))) l d ∈ l.
Proof.
  intros Hl. apply list_elem_of_In, nth_In.
  assert (0 < Z.of_nat (length l)) by (destruct l; [congruence|cbn; lia]).
  pose proof (Z.mod_pos_bound u (Z.of_nat (length l))). lia.
Qed.

Lemma instance_numpy_laws : numpy_laws the_libs.
Proof.
  constructor; cbn [np_randint np_rand np_choice np_normal the_libs].
  - intros. apply draw_length.
  - intros a b n r z Hab (u & Hu & ->)%draw_elem.
    pose proof (Z.mod_pos_bound u (b - a)). lia.
  - intros. apply draw_length.
  - intros n r x (u & Hu & ->)%draw_elem.
    assert (Hin : nth (Z.to_nat (u mod 4)) quarters (of_Z 0) ∈ quarters)
      by (apply (nth_mod_elem quarters (of_Z 0) u); discriminate).
    unfold quarters in Hin at 2.
    repeat (apply elem_of_cons in Hin as [->|Hin]; [reflexivity|]).
    inversion Hin.
  - intros. apply draw_length.
  - intros l n r x Hl (u & Hu & ->)%draw_elem. now apply nth_mod_elem.
  - intros. apply draw_length.
  - intros m s n r x Hm Hs (u & Hu & ->)%draw_elem. cbv zeta.
    destruct (is_finite (sub m s) && is_finite (add m s)) eqn:E; [|exact Hm].
    apply andb_true_iff in E as [E1 E2].
    assert (Hin : nth (Z.to_nat (u mod 3)) [sub m s; m; add m s] m
                  ∈ [sub m s; m; add m s])
      by (apply (nth_mod_elem [sub m s; m; add m s] m u); discriminate).
    repeat (apply elem_of_cons in Hin as [->|Hin]; [assumption|]).
    inversion Hin.
Qed.

Lemma instance_round_laws : round_laws the_libs.
Proof. split; [intros x y H; exact H|reflexivity]. Qed.

End InstanceFacts.

(** ** Concrete runs

    Each statement above that carries assumptions is applied here to a
    concrete request or state of the executable instance. *)

Section Runs.

Import Instance InstanceFacts.

Lemma training_completes (st : state the_libs) :
  (train_model the_libs st).2 = Done.
Proof.
  rewrite (train_model_outcome the_libs st fresh_state).
  vm_compute. reflexivity.
Qed.

Lemma training_run (st : state the_libs) :
  train_model the_libs st = ((train_model the_libs st).1, Done).
Proof.
  rewrite <- (training_completes st). apply surjective_pairing.
Qed.

Lemma missing_field_rejected_witness :
  exists pre field post,
    feature_names = (pre ++ field :: post)%list /\
    (forall f, f ∈ pre -> is_Some (short_record !! f)) /\
    short_record !! field = None /\
    predict_price the_libs loaded_globals (JsonBody (JObj short_record)) =
      mk_response 400
        (JObj {[ "error" := JStr ("Missing required field: " ++ field) ]}).
Proof.
  apply (missing_field_rejected the_libs loaded_globals short_record).
  exists "floors". split; [|reflexivity].
  unfold feature_names. rewrite !elem_of_cons. auto.
Defined.

Lemma first_violation_reported_witness :
  predict_price the_libs loaded_globals (JsonBody (JObj zero_bedrooms_record)) =
    mk_response 400
      (JObj {[ "error" := JStr "Bedrooms must be between 1 and 10" ]}).
Proof.
  refine (proj2 (first_violation_reported the_libs loaded_globals
                   zero_bedrooms_record (JInt 0) (JInt 2) (JInt 1800) (JInt 1)
                   (JInt 10) (of_Z 0) (of_Z 2) (of_Z 1800) (of_Z 1) (of_Z 10)
                   _ _ _) _).
  - apply record_has_fields.
  - reflexivity.
  - exists (mk_bound (of_Z 1) (of_Z 10) "Bedrooms must be between 1 and 10"),
      (of_Z 0).
    split; [|reflexivity]. apply elem_of_cons. left. reflexivity.
  - reflexivity.
Defined.

Lemma in_range_price_at_least_50000_witness :
  exists d : gmap string json,
    predict_price the_libs loaded_globals typical_request =
      mk_response 200 (JObj d) /\
    d !! "predicted_price" = Some (JFloat (of_Z 545000)) /\
    leb (of_Z 50000) (of_Z 545000) = true.
Proof.
  destruct (in_range_price_at_least_50000 the_libs loaded_globals
              (record (JInt 3) (JInt 2) (JInt 1800) (JInt 1) (JInt 10))
              (JInt 3) (JInt 2) (JInt 1800) (JInt 1) (JInt 10)
              (of_Z 3) (of_Z 2) (of_Z 1800) (of_Z 1) (of_Z 10)
              plain_scaler formula_model
              [[of_Z 3; of_Z 2; of_Z 1800; of_Z 1; of_Z 10]]
              (of_Z 545000) []) as (d & Hd & _ & Hhigh).
  - apply instance_round_laws.
  - apply record_has_fields.
  - reflexivity.
  - intros b v Hbv. cbn [zip zip_with bounds] in Hbv.
    repeat (apply elem_of_cons in Hbv as [[= -> ->]|Hbv];
            [vm_compute; reflexivity|]).
    inversion Hbv.
  - reflexivity.
  - reflexivity.
  - vm_compute. reflexivity.
  - vm_compute. reflexivity.
  - reflexivity.
  - exists d. split; [exact Hd|]. apply Hhigh. vm_compute. reflexivity.
Defined.

Lemma only_value_error_is_400_witness :
  predict_price the_libs fresh_globals null_bedrooms_request =
    mk_response 500
      (JObj {[ "error" := JStr
         "Prediction failed: float() argument must be a string or a real number, not 'NoneType'" ]}) /\
  predict_price the_libs fresh_globals
    (JsonBody (JObj (record (JStr "three") (JInt 2) (JInt 1800) (JInt 1)
                       (JInt 10)))) =
    mk_response 400
      (JObj {[ "error" := JStr
         "Invalid input data: could not convert string to float: 'three'" ]}).
Proof.
  destruct (only_value_error_is_400 the_libs fresh_globals) as (Hexc & Hnull & _).
  split.
  - apply (Hnull _ JNull (JInt 2) (JInt 1800) (JInt 1) (JInt 10) []
             [JInt 2; JInt 1800; JInt 1; JInt 10]).
    + apply record_has_fields.
    + reflexivity.
    + intros v Hv. inversion Hv.
  - refine (proj1 (Hexc _ (mk_exn ValueError
                     "could not convert string to float: 'three'") _) _).
    + apply predict_try_coercion_error
        with (v0 := JStr "three") (v1 := JInt 2) (v2 := JInt 1800)
             (v3 := JInt 1) (v4 := JInt 10).
      * apply record_has_fields.
      * reflexivity.
    + reflexivity.
Defined.

Lemma model_info_fails_iff_unloaded_witness :
  status (model_info the_libs fresh_globals) = 500 /\
  status (model_info the_libs loaded_globals) = 200.
Proof.
  split.
  - apply (proj1 (model_info_fails_iff_unloaded the_libs fresh_globals)).
    reflexivity.
  - destruct (model_info_fails_iff_unloaded the_libs loaded_globals)
      as (_ & _ & H).
    rewrite H; [reflexivity|discriminate].
Defined.

Lemma load_model_reads_iff_both_exist_witness :
  (load_model the_libs stored_state).2 = Done /\
  mem the_libs (load_model the_libs stored_state).1 = loaded_globals /\
  mem the_libs (load_model the_libs partial_state).1 =
    mk_globals the_libs (Model (fitted_model the_libs))
      (Scaler (fitted_scaler the_libs)) /\
  path_exists the_libs scaler_path (load_model the_libs partial_state).1 = true.
Proof.
  destruct (load_model_reads_iff_both_exist the_libs stored_state)
    as [Hboth _].
  destruct (load_model_reads_iff_both_exist the_libs partial_state)
    as [_ Hpart].
  destruct Hboth as (cm & cs & Hcm & Hcs & Heq & Hdone);
    [reflexivity|reflexivity|].
  destruct Hpart as (Htrain & Hfresh); [reflexivity|].
  assert (Hrun : load_model the_libs stored_state =
                 ((load_model the_libs stored_state).1, Done))
    by reflexivity.
  destruct (Hdone _ Hrun) as (m & sc & Hm & Hsc & Hmem & _).
  assert (Hrun' : load_model the_libs partial_state =
                  ((load_model the_libs partial_state).1, Done))
    by (rewrite Htrain; apply training_run).
  destruct (Hfresh _ Hrun') as (Hmem' & _ & _ & _ & Hex).
  split; [reflexivity|]. split; [reflexivity|]. split; assumption.
Defined.

Lemma training_is_deterministic_witness :
  mem the_libs (train_model the_libs fresh_state).1 =
    mem the_libs (train_model the_libs stored_state).1 /\
  fs the_libs (train_model the_libs (train_model the_libs fresh_state).1).1 =
    fs the_libs (train_model the_libs fresh_state).1.
Proof.
  destruct (training_is_deterministic the_libs fresh_state stored_state)
    as (_ & _ & _ & Hsame & Hagain).
  split.
  - exact (proj1 (Hsame _ _ (training_run fresh_state)
                     (training_run stored_state))).
  - destruct (Hagain _ (training_run fresh_state)) as (st'' & Hrun & _ & Hfs).
    rewrite Hrun. exact Hfs.
Defined.


End Runs.

(** * Further properties of the handlers *)

(** ** Which values the range tests accept *)

Lemma find_ext_elem {A : Type} (P Q : A -> bool) (l : list A) :
  (forall x, x ∈ l -> P x = Q x) -> find P l = find Q l.
Proof.
  induction l as [|a l IH]; intros H; [reflexivity|].
  cbn [find]. rewrite <- (H a) by (apply elem_of_cons; auto).
  rewrite IH; [reflexivity|].
  intros x Hx. apply H, elem_of_cons. auto.
Qed.

Lemma find_none_elem {A : Type} (P : A -> bool) (l : list A) :
  find P l = None -> forall x, x ∈ l -> P x = false.
Proof.
  intros H x Hx. apply (find_none P l H), list_elem_of_In, Hx.
Qed.

Lemma find_some_elem {A : Type} (P : A -> bool) (l : list A) (x : A) :
  find P l = Some x -> x ∈ l /\ P x = true.
Proof.
  intros [Hin Hx]%find_some. split; [now apply list_elem_of_In|exact Hx].
Qed.

Lemma bounds_not_nan (b : bound) :
  b ∈ bounds -> is_nan (lo b) = false /\ is_nan (hi b) = false.
Proof.
  unfold bounds. intros Hb.
  repeat (apply elem_of_cons in Hb as [->|Hb]; [split; reflexivity|]).
  inversion Hb.
Qed.

Lemma violates_false_iff (b : bound) (v : float) :
  b ∈ bounds ->
  violates b v = false <-> in_range b v = true \/ is_nan v = true.
Proof.
  intros [Hl Hh]%bounds_not_nan.
  destruct (is_nan v) eqn:Hv.
  - destruct v; try discriminate. rewrite nan_violates_nothing. tauto.
  - rewrite (violates_iff_outside b v Hl Hh Hv), negb_false_iff.
    split; [auto|]. intros [H|H]; [exact H|discriminate].
Qed.

(** X1. The range tests let the five values through exactly when each of them
    lies in its declared range or is NaN. *)
Theorem validate_ranges_accepts_iff (f0 f1 f2 f3 f4 : float) :
  validate_ranges f0 f1 f2 f3 f4 = Next tt <->
  forall b v, (b, v) ∈ zip bounds [f0; f1; f2; f3; f4] ->
              in_range b v = true \/ is_nan v = true.
Proof.
  rewrite validate_ranges_find. split.
  - destruct (find _ _) as [bv|] eqn:Hfind; [discriminate|].
    intros _ b v Hbv. apply violates_false_iff.
    + eapply elem_of_zip_l, Hbv.
    + exact (find_none_elem _ _ Hfind (b, v) Hbv).
  - intros H. rewrite find_nowhere; [reflexivity|].
    intros [b v] Hbv. apply violates_false_iff.
    + eapply elem_of_zip_l, Hbv.
    + now apply H.
Qed.

(** ** Every way [predict_price] can end *)

Lemma check_required_cases (data : json) (fields : list string) :
  (check_required data fields = Next tt /\
   forall f, f ∈ fields -> py_contains data f = inr true) \/
  (exists f, f ∈ fields /\
     check_required data fields =
       Return (error_response 400 ("Missing required field: " ++ f))) \/
  (exists e, check_required data fields = Raise e).
Proof.
  induction fields as [|f fields IH]; cbn [check_required].
  - left. split; [reflexivity|]. intros f Hf. inversion Hf.
  - destruct (py_contains data f) as [e|[|]] eqn:Hc; cbn [lift bind negb].
    + right. right. eauto.
    + destruct IH as [[IH1 IH2]|[(f' & Hf' & IH)|[e IH]]].
      * left. split; [exact IH1|].
        intros f' [->|Hf']%elem_of_cons; auto.
      * right. left. exists f'. split; [apply elem_of_cons; auto|exact IH].
      * right. right. eauto.
    + right. left. exists f. split; [apply elem_of_cons; auto|reflexivity].
Qed.

Lemma getitem_not_object (L : libs) (data : json) (field : string) :
  (forall m, data <> JObj m) -> exists e, py_getitem L data field = inl e.
Proof.
  intros H. destruct data; cbn [py_getitem]; eauto.
  now destruct (H m).
Qed.

Lemma contains_object (m : gmap string json) (f : string) :
  py_contains (JObj m) f = inr true -> is_Some (m !! f).
Proof.
  cbn [py_contains]. intros [= H]. now apply bool_decide_eq_true in H.
Qed.

Section Cases.

Context (L : libs) (g : globals L).

Lemma predict_pipeline_cases (f0 f1 f2 f3 f4 : float) :
  (exists e, predict_pipeline L g f0 f1 f2 f3 f4 = Raise e) \/
  (exists sc md X y ys,
     scaler L g = Scaler sc /\ model L g = Model md /\
     transform L sc [[f0; f1; f2; f3; f4]] = inr X /\
     predict L md X = inr (y :: ys) /\
     predict_pipeline L g f0 f1 f2 f3 f4 =
       Next (success_response L f0 f1 f2 f3 f4 y)).
Proof.
  unfold predict_pipeline, call_transform, call_predict.
  destruct (scaler L g) as [|sc|] eqn:Hsc; cbn [bind]; eauto.
  destruct (transform L sc _) as [e|X] eqn:Htr; cbn [lift bind]; eauto.
  destruct (model L g) as [| |md] eqn:Hmd; cbn [bind]; eauto.
  destruct (predict L md X) as [e|[|y ys]] eqn:Hpr; cbn [lift bind index0];
    eauto.
  right. exists sc, md, X, y, ys. auto.
Qed.

(** The statements inside [try] end in one of four ways: an exception, the
    missing-field response, a range response, or the success response of
    a served request. *)
Lemma predict_try_cases (req : request) :
  (exists e, predict_try L g req = Raise e) \/
  (exists f, f ∈ feature_names /\
     predict_try L g req =
       Return (error_response 400 ("Missing required field: " ++ f))) \/
  (exists b, b ∈ bounds /\
     predict_try L g req = Return (error_response 400 (message b))) \/
  (exists f0 f1 f2 f3 f4 y,
     served L g req f0 f1 f2 f3 f4 y /\
     predict_try L g req = Next (success_response L f0 f1 f2 f3 f4 y)).
Proof.
  destruct req as [data|reason]; [|left; eexists; reflexivity].
  destruct (check_required_cases data feature_names)
    as [[Hok Hall]|[(f & Hf & Hmiss)|[e He]]].
  2:{ right. left. exists f. split; [exact Hf|].
      unfold predict_try. cbn [get_json bind]. now rewrite Hmiss. }
  2:{ left. exists e. unfold predict_try. cbn [get_json bind].
      now rewrite He. }
  destruct data as [| | | | | |m].
  1-6: left;
    match goal with
    | |- context [JsonBody ?d] =>
        destruct (getitem_not_object L d "bedrooms") as [e He];
          [discriminate|]; exists e;
          unfold predict_try, extract; cbn [get_json bind];
          rewrite Hok; cbn [bind]; rewrite He; reflexivity
    end.
  assert (Hin : forall f, f ∈ feature_names -> is_Some (m !! f))
    by (intros f Hf; apply contains_object, Hall, Hf).
  unfold feature_names in Hin.
  destruct (Hin "bedrooms") as [v0 H0]; [rewrite !elem_of_cons; auto|].
  destruct (Hin "bathrooms") as [v1 H1]; [rewrite !elem_of_cons; auto|].
  destruct (Hin "sqft_living") as [v2 H2]; [rewrite !elem_of_cons; auto|].
  destruct (Hin "floors") as [v3 H3]; [rewrite !elem_of_cons; auto|].
  destruct (Hin "age") as [v4 H4]; [rewrite !elem_of_cons; auto 6|].
  assert (Hfields : has_fields m v0 v1 v2 v3 v4) by (repeat split; assumption).
  destruct (coerce_all L [v0; v1; v2; v3; v4]) as [e|fs] eqn:Hco.
  { left. exists e. now apply (predict_try_coercion_error L g m _ _ _ _ _ Hfields). }
  assert (exists f0 f1 f2 f3 f4, fs = [f0; f1; f2; f3; f4])
    as (f0 & f1 & f2 & f3 & f4 & ->).
  { revert Hco. cbn [coerce_all].
    destruct (py_float L v0), (py_float L v1), (py_float L v2), (py_float L v3),
      (py_float L v4); try discriminate.
    intros [= <-]. eauto 6. }
  rewrite (predict_try_coerced L g m _ _ _ _ _ Hfields _ _ _ _ _ Hco).
  rewrite validate_ranges_find.
  destruct (find _ _) as [[b v]|] eqn:Hfind; cbn [bind reject fst].
  { right. right. left. exists b.
    apply find_some_elem in Hfind as [Hbv _].
    split; [eapply elem_of_zip_l, Hbv|reflexivity]. }
  destruct (predict_pipeline_cases f0 f1 f2 f3 f4)
    as [[e He]|(sc & md & X & y & ys & Hsc & Hmd & Htr & Hpr & Hp)].
  { left. eauto. }
  right. right. right. exists f0, f1, f2, f3, f4, y.
  split; [|exact Hp].
  exists m, v0, v1, v2, v3, v4, sc, md, X, ys.
  repeat split; try assumption.
  intros b v Hbv. exact (find_none_elem _ _ Hfind (b, v) Hbv).
Qed.

End Cases.

(** X2. Every answer of [predict_price] is of one of five kinds: the success
    response of a served request, 400 for the first missing field, 400 with
    the message of a bound, 400 "Invalid input data" for a [ValueError],
    or 500 "Prediction failed" for any other exception.  So the status is
    200, 400 or 500, and every answer other than 200 is an object with the
    single key "error". *)
Theorem predict_price_answers (L : libs) (g : globals L) (req : request) :
  (exists f0 f1 f2 f3 f4 y,
     served L g req f0 f1 f2 f3 f4 y /\
     predict_price L g req = success_response L f0 f1 f2 f3 f4 y) \/
  (exists f, f ∈ feature_names /\
     predict_price L g req =
       error_response 400 ("Missing required field: " ++ f)) \/
  (exists b, b ∈ bounds /\
     predict_price L g req = error_response 400 (message b)) \/
  (exists e, is_ValueError e = true /\
     predict_price L g req =
       error_response 400 ("Invalid input data: " ++ exn_str e)) \/
  (exists e, is_ValueError e = false /\
     predict_price L g req =
       error_response 500 ("Prediction failed: " ++ exn_str e)).
Proof.
  unfold predict_price.
  destruct (predict_try_cases L g req)
    as [[e ->]|[(f & Hf & ->)|[(b & Hb & ->)|
        (f0 & f1 & f2 & f3 & f4 & y & Hs & ->)]]].
  - unfold predict_except. destruct (is_ValueError e) eqn:He.
    + right. right. right. left. eauto.
    + right. right. right. right. eauto.
  - right. left. eauto.
  - right. right. left. eauto.
  - left. exists f0, f1, f2, f3, f4, y. auto.
Qed.

(** X3. A 200 is only ever given to a served request: a JSON object with the
    five fields, all of them coercible, none outside its bounds, and a
    scaler and a model that are loaded and return a prediction.  The body
    then echoes the coerced features. *)
Theorem ok_only_when_served (L : libs) (g : globals L) (req : request) :
  status (predict_price L g req) = 200 ->
  exists f0 f1 f2 f3 f4 y,
    served L g req f0 f1 f2 f3 f4 y /\
    predict_price L g req = success_response L f0 f1 f2 f3 f4 y.
Proof.
  unfold predict_price.
  destruct (predict_try_cases L g req)
    as [[e ->]|[(f & Hf & ->)|[(b & Hb & ->)|
        (f0 & f1 & f2 & f3 & f4 & y & Hs & ->)]]].
  - unfold predict_except. destruct (is_ValueError e); discriminate.
  - discriminate.
  - discriminate.
  - intros _. exists f0, f1, f2, f3, f4, y. auto.
Qed.

(** ** What the answer depends on *)

(** X4. Keys other than the five feature names are ignored: two JSON objects
    that agree on the five names get the same answer. *)
Theorem other_keys_ignored (L : libs) (g : globals L)
  (m m' : gmap string json) :
  (forall f, f ∈ feature_names -> m !! f = m' !! f) ->
  predict_price L g (JsonBody (JObj m)) =
  predict_price L g (JsonBody (JObj m')).
Proof.
  intros H. unfold predict_price, predict_try. cbn [get_json bind].
  rewrite !check_required_find.
  rewrite (find_ext_elem (missing m) (missing m') feature_names)
    by (intros f Hf; unfold missing; now rewrite (H f Hf)).
  unfold extract, py_getitem, feature_names in *.
  rewrite (H "bedrooms"), (H "bathrooms"), (H "sqft_living"), (H "floors"),
    (H "age") by (rewrite !elem_of_cons; auto 6).
  reflexivity.
Qed.

(** X5. Only the floats the five values coerce to matter: a number, a numeric
    string and a boolean with the same [float] get the same answer. *)
Theorem same_floats_same_answer (L : libs) (g : globals L)
  (m m' : gmap string json) (v0 v1 v2 v3 v4 w0 w1 w2 w3 w4 : json) :
  has_fields m v0 v1 v2 v3 v4 ->
  has_fields m' w0 w1 w2 w3 w4 ->
  py_float L v0 = py_float L w0 -> py_float L v1 = py_float L w1 ->
  py_float L v2 = py_float L w2 -> py_float L v3 = py_float L w3 ->
  py_float L v4 = py_float L w4 ->
  predict_price L g (JsonBody (JObj m)) =
  predict_price L g (JsonBody (JObj m')).
Proof.
  intros Hm Hm' H0 H1 H2 H3 H4. unfold predict_price.
  rewrite (predict_try_extract L g m _ _ _ _ _ Hm).
  rewrite (predict_try_extract L g m' _ _ _ _ _ Hm').
  now rewrite H0, H1, H2, H3, H4.
Qed.

(** ** Values that cannot be served *)

Lemma coerce_all_unparsable (L : libs) (pre post : list json) (s : string) :
  (forall v, v ∈ pre -> exists f, py_float L v = inr f) ->
  of_string L s = None ->
  coerce_all L (pre ++ JStr s :: post) =
  inl (mk_exn ValueError ("could not convert string to float: " ++ py_repr L s)).
Proof.
  intros Hpre Hs. induction pre as [|v pre IH].
  - cbn [app coerce_all py_float]. now rewrite Hs.
  - cbn [app coerce_all].
    destruct (Hpre v) as [f ->]; [apply elem_of_cons; auto|].
    rewrite IH; [reflexivity|].
    intros v' Hv'. apply Hpre, elem_of_cons. auto.
Qed.

(** X6. A field holding a string that [float] cannot parse is answered with
    400 "Invalid input data: could not convert string to float: "
    followed by the [repr] of the string, when the fields before it
    coerce, whether or not those lie in their ranges: all five coercions
    come before the first range test. *)
Theorem unparsable_string_is_400 (L : libs) (g : globals L)
  (m : gmap string json) (v0 v1 v2 v3 v4 : json)
  (pre post : list json) (s : string) :
  has_fields m v0 v1 v2 v3 v4 ->
  [v0; v1; v2; v3; v4] = (pre ++ JStr s :: post)%list ->
  (forall v, v ∈ pre -> exists f, py_float L v = inr f) ->
  of_string L s = None ->
  predict_price L g (JsonBody (JObj m)) =
    error_response 400
      ("Invalid input data: could not convert string to float: "
         ++ py_repr L s).
Proof.
  intros Hfields Heq Hpre Hs. unfold predict_price.
  rewrite (predict_try_coercion_error L g m _ _ _ _ _ Hfields
             (mk_exn ValueError
                ("could not convert string to float: " ++ py_repr L s))).
  - reflexivity.
  - rewrite Heq. now apply coerce_all_unparsable.
Qed.

Lemma infinity_violates (b : bound) (neg : bool) :
  b ∈ bounds -> violates b (inf neg) = true.
Proof.
  unfold bounds. intros Hb.
  repeat (apply elem_of_cons in Hb as [->|Hb]; [now destruct neg|]).
  inversion Hb.
Qed.

(** X7. An infinite feature value never reaches the model: when the five
    fields coerce and one of the values is an infinity, the answer is the
    400 response of some bound.  (NaN, by contrast, passes.) *)
Theorem infinity_is_rejected (L : libs) (g : globals L)
  (m : gmap string json) (v0 v1 v2 v3 v4 : json) (f0 f1 f2 f3 f4 : float)
  (neg : bool) :
  has_fields m v0 v1 v2 v3 v4 ->
  coerce_all L [v0; v1; v2; v3; v4] = inr [f0; f1; f2; f3; f4] ->
  inf neg ∈ [f0; f1; f2; f3; f4] ->
  exists b, b ∈ bounds /\
    predict_price L g (JsonBody (JObj m)) = error_response 400 (message b).
Proof.
  intros Hfields Hco Hinf. unfold predict_price.
  rewrite (predict_try_coerced L g m _ _ _ _ _ Hfields _ _ _ _ _ Hco).
  rewrite validate_ranges_find.
  destruct (find _ _) as [[b v]|] eqn:Hfind.
  - apply find_some_elem in Hfind as [Hbv _].
    exists b. split; [eapply elem_of_zip_l, Hbv|reflexivity].
  - exfalso.
    assert (exists b, (b, inf neg) ∈ zip bounds [f0; f1; f2; f3; f4])
      as [b Hb].
    { unfold bounds. cbn [zip zip_with].
      repeat (apply elem_of_cons in Hinf as [<-|Hinf];
              [eexists; rewrite !elem_of_cons; eauto 6|]).
      inversion Hinf. }
    pose proof (find_none_elem _ _ Hfind (b, inf neg) Hb) as Hv.
    cbn [fst snd] in Hv.
    rewrite (infinity_violates b neg) in Hv; [discriminate|].
    eapply elem_of_zip_l, Hb.
Qed.

(** ** Requests before anything is loaded *)

(** X8. While the global [scaler] is [None], a request that passes the field,
    coercion and range checks is answered with 500 and the text of the
    [AttributeError]; the checks themselves do not need the model. *)
Theorem valid_request_without_scaler (L : libs) (g : globals L)
  (m : gmap string json) (v0 v1 v2 v3 v4 : json) (f0 f1 f2 f3 f4 : float) :
  has_fields m v0 v1 v2 v3 v4 ->
  coerce_all L [v0; v1; v2; v3; v4] = inr [f0; f1; f2; f3; f4] ->
  (forall b v, (b, v) ∈ zip bounds [f0; f1; f2; f3; f4] ->
               violates b v = false) ->
  scaler L g = PyNone ->
  predict_price L g (JsonBody (JObj m)) =
    error_response 500
      "Prediction failed: 'NoneType' object has no attribute 'transform'".
Proof.
  intros Hfields Hco Hok Hsc. unfold predict_price.
  rewrite (predict_try_coerced L g m _ _ _ _ _ Hfields _ _ _ _ _ Hco).
  rewrite validate_ranges_find, find_nowhere
    by (intros [b v] Hbv; now apply Hok).
  cbn [bind]. unfold predict_pipeline, call_transform. rewrite Hsc.
  reflexivity.
Qed.

(** * Further properties of training and loading *)

Section Files.

Context (L : libs).

Lemma train_model_raised (st : state L) (e : exn) :
  (train_model L st).2 = Raised e ->
  fs L (train_model L st).1 = fs L st /\
  stdout L (train_model L st).1 = stdout L st.
Proof.
  unfold train_model.
  destruct (create_sample_data L (rng L st)) as [df r].
  destruct (split_data L df) as [[[X_train X_test] y_train] y_test].
  destruct (fit_transform L X_train) as [sc X_train_scaled].
  destruct (transform L sc X_test) as [e'|X_test_scaled]; [auto|].
  destruct (predict L _ X_test_scaled) as [e'|y_pred]; [auto|discriminate].
Qed.

Lemma train_model_other_files (st : state L) (path : string) :
  path <> model_path -> path <> scaler_path ->
  fs L (train_model L st).1 !! path = fs L st !! path.
Proof.
  intros Hm Hs.
  destruct (train_model L st) as [st' [|e]] eqn:Hrun.
  - apply train_model_done in Hrun as (_ & Hfs & _). cbn [fst].
    rewrite Hfs. by simplify_map_eq.
  - pose proof (train_model_raised st e) as H. rewrite Hrun in H.
    cbn [fst snd] in *. destruct H as [-> _]; reflexivity.
Qed.

(** X9. [load_model] and [train_model] write no file other than the two
    artifacts, however they end: every other path keeps its content, or
    stays absent. *)
Theorem only_artifacts_written (st : state L) (path : string) :
  path <> model_path -> path <> scaler_path ->
  fs L (train_model L st).1 !! path = fs L st !! path /\
  fs L (load_model L st).1 !! path = fs L st !! path.
Proof.
  intros Hm Hs. split; [now apply train_model_other_files|].
  unfold load_model.
  destruct (path_exists L model_path st && path_exists L scaler_path st).
  - destruct (load_file L model_path st) as [e|m]; [reflexivity|].
    destruct (load_file L scaler_path _) as [e|sc]; reflexivity.
  - now rewrite train_model_other_files.
Qed.

(** X10. When [scaler.transform(X_test)] or [model.predict(X_test_scaled)]
    raises inside [train_model], the function ends with that exception
    before any print or dump: the files and the output are as before,
    while the global [scaler] already holds the newly fitted scaler. *)
Theorem failed_training_writes_nothing (st : state L)
  (X_train X_test : matrix) (y_train y_test : vector)
  (sc : scaler_t L) (X_train_scaled : matrix) (e : exn) :
  split_data L (training_data L) = (X_train, X_test, y_train, y_test) ->
  fit_transform L X_train = (sc, X_train_scaled) ->
  (transform L sc X_test = inl e \/
   exists X_test_scaled,
     transform L sc X_test = inr X_test_scaled /\
     predict L (fit L X_train_scaled y_train) X_test_scaled = inl e) ->
  (train_model L st).2 = Raised e /\
  fs L (train_model L st).1 = fs L st /\
  stdout L (train_model L st).1 = stdout L st /\
  scaler L (mem L (train_model L st).1) = Scaler sc.
Proof.
  intros Hsplit Hfit Hraise. unfold train_model.
  rewrite (create_sample_data_seeded L (rng L st) (np_seed L 42)).
  unfold training_data in Hsplit.
  destruct (create_sample_data L (np_seed L 42)) as [df r].
  cbn [fst] in Hsplit. rewrite Hsplit, Hfit.
  destruct Hraise as [Htr|(X_test_scaled & Htr & Hpr)].
  - rewrite Htr. repeat split; reflexivity.
  - rewrite Htr, Hpr. repeat split; reflexivity.
Qed.

(** X11. Once [load_model] has completed, both artifact files exist, so the
    next [load_model] reads them instead of training: it leaves the
    files and the generator untouched, however it ends. *)
Theorem load_model_completed (st st' : state L) :
  load_model L st = (st', Done) ->
  path_exists L model_path st' = true /\
  path_exists L scaler_path st' = true /\
  fs L (load_model L st').1 = fs L st' /\
  rng L (load_model L st').1 = rng L st'.
Proof.
  intros Hrun.
  assert (Hex : path_exists L model_path st' = true /\
                path_exists L scaler_path st' = true).
  { revert Hrun. unfold load_model.
    destruct (path_exists L model_path st) eqn:Hm;
      destruct (path_exists L scaler_path st) eqn:Hs; cbn [andb].
    - destruct (load_file L model_path st) as [e|m]; [discriminate|].
      destruct (load_file L scaler_path _) as [e|sc]; [discriminate|].
      intros [= <-]. split; assumption.
    - intros (_ & Hfs & _)%train_model_done.
      split; apply path_exists_lookup; rewrite Hfs; by simplify_map_eq.
    - intros (_ & Hfs & _)%train_model_done.
      split; apply path_exists_lookup; rewrite Hfs; by simplify_map_eq.
    - intros (_ & Hfs & _)%train_model_done.
      split; apply path_exists_lookup; rewrite Hfs; by simplify_map_eq. }
  destruct Hex as [Hm Hs]. split; [exact Hm|]. split; [exact Hs|].
  unfold load_model. rewrite Hm, Hs. cbn [andb].
  destruct (load_file L model_path st') as [e|m]; [auto|].
  destruct (load_file L scaler_path _) as [e|sc]; auto.
Qed.

(** X12. Training followed by a restart gives the fitted pair back: if
    [joblib.load] returns what [joblib.dump] wrote, then in any later
    state with the files that a completed [train_model] left,
    [load_model] completes with the fitted scaler and model in the
    globals, without training. *)
Theorem restart_restores_fitted_pair (st st' st0 : state L) :
  joblib_round_trip L ->
  train_model L st = (st', Done) ->
  fs L st0 = fs L st' ->
  load_model L st0 =
    (mk_state L
       (mk_globals L (Model (fitted_model L)) (Scaler (fitted_scaler L)))
       (fs L st0) (rng L st0)
       (stdout L st0 ++ ["Model loaded successfully!"]),
     Done).
Proof.
  intros Hrt (_ & Hfs & _)%train_model_done Hsame.
  rewrite Hfs in Hsame.
  assert (Hm : fs L st0 !! model_path =
               Some (joblib_dump L (Model (fitted_model L))))
    by (rewrite Hsame; by simplify_map_eq).
  assert (Hs : fs L st0 !! scaler_path =
               Some (joblib_dump L (Scaler (fitted_scaler L))))
    by (rewrite Hsame; by simplify_map_eq).
  unfold load_model, path_exists, load_file. cbn [fs set_model].
  rewrite Hm, Hs, !Hrt.
  rewrite !bool_decide_eq_true_2 by eauto.
  reflexivity.
Qed.

End Files.

(** * Further properties of the synthetic data *)

Lemma rows_length (n : nat) (c0 c1 c2 c3 c4 : vector) :
  length c0 = n -> length c1 = n -> length c2 = n -> length c3 = n ->
  length c4 = n -> length (rows c0 c1 c2 c3 c4) = n.
Proof.
  revert c0 c1 c2 c3 c4.
  induction n as [|n IH]; intros [|x0 c0] [|x1 c1] [|x2 c2] [|x3 c3] [|x4 c4];
    try discriminate; try reflexivity.
  cbn [length rows]. intros [= H0] [= H1] [= H2] [= H3] [= H4].
  now rewrite (IH c0 c1 c2 c3 c4).
Qed.

Lemma rows_lookup (c0 c1 c2 c3 c4 : vector) (i : nat)
  (x0 x1 x2 x3 x4 : float) :
  c0 !! i = Some x0 -> c1 !! i = Some x1 -> c2 !! i = Some x2 ->
  c3 !! i = Some x3 -> c4 !! i = Some x4 ->
  rows c0 c1 c2 c3 c4 !! i = Some [x0; x1; x2; x3; x4].
Proof.
  revert c0 c1 c2 c3 c4.
  induction i as [|i IH]; intros [|y0 c0] [|y1 c1] [|y2 c2] [|y3 c3] [|y4 c4];
    try discriminate; cbn [rows].
  - intros [= ->] [= ->] [= ->] [= ->] [= ->]. reflexivity.
  - intros H0 H1 H2 H3 H4. exact (IH c0 c1 c2 c3 c4 H0 H1 H2 H3 H4).
Qed.

Lemma holds_on_interval (P : Z -> bool) (a n : Z) :
  forallb P (seqZ a n) = true -> forall z, a <= z < a + n -> P z = true.
Proof.
  intros H z Hz. rewrite forallb_forall in H.
  apply H, list_elem_of_In, elem_of_seqZ, Hz.
Qed.

Section Frame.

Context (L : libs) (HL : numpy_laws L).

(** X13. The matrix handed to [train_test_split] has one row of five floats
    per sample, 1000 in all, as many as there are prices; row [i] holds
    the [i]-th bedrooms, bathrooms, sqft_living, floors and age in the
    order of [feature_names], the integer columns converted to float. *)
Theorem feature_matrix_rows (r : rng_t L) (i : nat) :
  (i < n_samples)%nat ->
  let df := (create_sample_data L r).1 in
  length (feature_matrix (features df)) = n_samples /\
  length (price df) = n_samples /\
  exists b ba s f a,
    bedrooms (features df) !! i = Some b /\
    bathrooms (features df) !! i = Some ba /\
    sqft_living (features df) !! i = Some s /\
    floors (features df) !! i = Some f /\
    age (features df) !! i = Some a /\
    feature_matrix (features df) !! i =
      Some [of_Z b; ba; of_Z s; f; of_Z a].
Proof.
  intros Hi. unfold create_sample_data.
  pose proof (sample_features_columns L HL (np_seed L 42)) as Hc.
  destruct (sample_features L (np_seed L 42)) as [c r6].
  cbn [fst snd] in *.
  destruct Hc as ((Lb & Lba & Ls & Lf & La) & _).
  pose proof (normal_length L HL (of_Z 0) (of_Z 20000) n_samples r6) as Ln.
  unfold sample_noise.
  destruct (np_normal L (of_Z 0) (of_Z 20000) n_samples r6) as [noise r7].
  cbn [fst snd features price] in *.
  destruct (lookup_lt_is_Some_2 (bedrooms c) i) as [b Hb]; [lia|].
  destruct (lookup_lt_is_Some_2 (bathrooms c) i) as [ba Hba]; [lia|].
  destruct (lookup_lt_is_Some_2 (sqft_living c) i) as [s Hs]; [lia|].
  destruct (lookup_lt_is_Some_2 (floors c) i) as [f Hf]; [lia|].
  destruct (lookup_lt_is_Some_2 (age c) i) as [a Ha]; [lia|].
  split; [|split].
  - unfold feature_matrix. apply rows_length; rewrite ?length_fmap; assumption.
  - rewrite length_fmap. unfold prices. cbv zeta.
    rewrite length_fmap, !length_zip_with, !length_fmap. lia.
  - exists b, ba, s, f, a. repeat split; try assumption.
    unfold feature_matrix. apply rows_lookup; try assumption;
      rewrite list_lookup_fmap; [rewrite Hb|rewrite Hs|rewrite Ha];
      reflexivity.
Qed.

(** X14. The bedrooms, sqft_living, floors and age of every training sample
    lie in the ranges [predict_price] accepts: in each row of the feature
    matrix, every entry but the second is within the bound of its
    position. *)
Theorem training_features_in_range (r : rng_t L) (i k : nat)
  (row : vector) (b : bound) (x : float) :
  feature_matrix (features (create_sample_data L r).1) !! i = Some row ->
  k <> 1%nat -> bounds !! k = Some b -> row !! k = Some x ->
  in_range b x = true.
Proof.
  unfold create_sample_data.
  pose proof (sample_features_columns L HL (np_seed L 42)) as Hc.
  destruct (sample_features L (np_seed L 42)) as [c r6].
  cbn [fst snd] in *.
  destruct Hc as ((Lb & Lba & Ls & Lf & La) & Rb & _ & Rs & Rf & Ra).
  destruct (sample_noise L r6) as [noise r7]. cbn [fst features].
  intros Hrow Hk Hbk Hxk.
  assert (Hi : (i < n_samples)%nat).
  { apply lookup_lt_Some in Hrow. unfold feature_matrix in Hrow.
    rewrite (rows_length n_samples) in Hrow; rewrite ?length_fmap; auto. }
  destruct (lookup_lt_is_Some_2 (bedrooms c) i) as [vb Hb]; [lia|].
  destruct (lookup_lt_is_Some_2 (bathrooms c) i) as [vba Hba]; [lia|].
  destruct (lookup_lt_is_Some_2 (sqft_living c) i) as [vs Hs]; [lia|].
  destruct (lookup_lt_is_Some_2 (floors c) i) as [vf Hf]; [lia|].
  destruct (lookup_lt_is_Some_2 (age c) i) as [va Ha]; [lia|].
  unfold feature_matrix in Hrow.
  rewrite (rows_lookup _ _ _ _ _ i (of_Z vb) vba (of_Z vs) vf (of_Z va))
    in Hrow; try assumption;
    try (rewrite list_lookup_fmap; first [rewrite Hb|rewrite Hs|rewrite Ha];
         reflexivity).
  injection Hrow as <-.
  destruct k as [|[|[|[|[|k]]]]]; try congruence;
    cbn in Hbk, Hxk; try discriminate;
    injection Hbk as <-; injection Hxk as <-.
  - apply (holds_on_interval
             (fun z => in_range (mk_bound (of_Z 1) (of_Z 10) "") (of_Z z)) 1 5);
      [vm_compute; reflexivity|].
    eapply Rb, list_elem_of_lookup_2; eauto.
  - apply (holds_on_interval
             (fun z => in_range (mk_bound (of_Z 100) (of_Z 20000) "") (of_Z z))
             800 4200); [vm_compute; reflexivity|].
    eapply Rs, list_elem_of_lookup_2; eauto.
  - assert (Hin : vf ∈ floor_values)
      by (eapply Rf, list_elem_of_lookup_2; eauto).
    unfold floor_values in Hin.
    repeat (apply elem_of_cons in Hin as [->|Hin]; [vm_compute; reflexivity|]).
    inversion Hin.
  - apply (holds_on_interval
             (fun z => in_range (mk_bound (of_Z 0) (of_Z 200) "") (of_Z z)) 0 50);
      [vm_compute; reflexivity|].
    eapply Ra, list_elem_of_lookup_2; eauto.
Qed.

End Frame.

(** * More concrete runs *)

Section MoreRuns.

Import Instance InstanceFacts.

Lemma validate_ranges_accepts_iff_witness :
  validate_ranges (of_Z 3) (of_Z 2) nan (of_Z 1) (of_Z 10) = Next tt.
Proof.
  apply (proj2 (validate_ranges_accepts_iff (of_Z 3) (of_Z 2) nan (of_Z 1)
                  (of_Z 10))).
  intros b v Hbv. cbn [zip zip_with bounds] in Hbv.
  repeat (apply elem_of_cons in Hbv as [[= -> ->]|Hbv];
          [first [left; vm_compute; reflexivity|right; reflexivity]|]).
  inversion Hbv.
Defined.

Lemma ok_only_when_served_witness :
  exists f0 f1 f2 f3 f4 y,
    served the_libs loaded_globals typical_request f0 f1 f2 f3 f4 y /\
    predict_price the_libs loaded_globals typical_request =
      success_response the_libs f0 f1 f2 f3 f4 y.
Proof.
  apply (ok_only_when_served the_libs loaded_globals typical_request).
  vm_compute. reflexivity.
Defined.

Lemma other_keys_ignored_witness :
  predict_price the_libs loaded_globals (JsonBody (JObj wordy_record)) =
  predict_price the_libs loaded_globals typical_request.
Proof.
  apply (other_keys_ignored the_libs loaded_globals wordy_record
           (record (JInt 3) (JInt 2) (JInt 1800) (JInt 1) (JInt 10))).
  intros f Hf. unfold feature_names in Hf.
  repeat (apply elem_of_cons in Hf as [->|Hf]; [vm_compute; reflexivity|]).
  inversion Hf.
Defined.

Lemma same_floats_same_answer_witness :
  predict_price the_libs loaded_globals (JsonBody (JObj loose_record)) =
  predict_price the_libs loaded_globals
    (JsonBody (JObj (record (JInt 3) (JInt 2) (JInt 1800) (JInt 1) (JInt 10)))).
Proof.
  apply (same_floats_same_answer the_libs loaded_globals loose_record _
           (JStr "3") (JStr "2.0") (JStr " 1800 ") (JBool true)
           (JFloat (of_Z 10)) (JInt 3) (JInt 2) (JInt 1800) (JInt 1) (JInt 10));
    try apply record_has_fields; vm_compute; reflexivity.
Defined.

Lemma unparsable_string_is_400_witness :
  predict_price the_libs loaded_globals (JsonBody (JObj old_record)) =
    error_response 400
      "Invalid input data: could not convert string to float: 'old'".
Proof.
  apply (unparsable_string_is_400 the_libs loaded_globals old_record
           (JInt 0) (JInt 2) (JInt 1800) (JInt 1) (JStr "old")
           [JInt 0; JInt 2; JInt 1800; JInt 1] [] "old").
  - apply record_has_fields.
  - reflexivity.
  - intros v Hv.
    repeat (apply elem_of_cons in Hv as [->|Hv]; [eexists; reflexivity|]).
    inversion Hv.
  - reflexivity.
Defined.

Lemma infinity_is_rejected_witness :
  exists b, b ∈ bounds /\
    predict_price the_libs loaded_globals (JsonBody (JObj vast_record)) =
      error_response 400 (message b).
Proof.
  apply (infinity_is_rejected the_libs loaded_globals vast_record
           (JInt 3) (JInt 2) (JStr "inf") (JInt 1) (JInt 10)
           (of_Z 3) (of_Z 2) (inf false) (of_Z 1) (of_Z 10) false).
  - apply record_has_fields.
  - reflexivity.
  - rewrite !elem_of_cons. auto.
Defined.

Lemma valid_request_without_scaler_witness :
  predict_price the_libs fresh_globals typical_request =
    error_response 500
      "Prediction failed: 'NoneType' object has no attribute 'transform'".
Proof.
  apply (valid_request_without_scaler the_libs fresh_globals _
           (JInt 3) (JInt 2) (JInt 1800) (JInt 1) (JInt 10)
           (of_Z 3) (of_Z 2) (of_Z 1800) (of_Z 1) (of_Z 10)).
  - apply record_has_fields.
  - reflexivity.
  - intros b v Hbv. cbn [zip zip_with bounds] in Hbv.
    repeat (apply elem_of_cons in Hbv as [[= -> ->]|Hbv];
            [vm_compute; reflexivity|]).
    inversion Hbv.
  - reflexivity.
Defined.

Lemma only_artifacts_written_witness :
  fs the_libs (train_model the_libs notes_state).1 !! "notes.txt" = Some None /\
  fs the_libs (load_model the_libs notes_state).1 !! "notes.txt" = Some None.
Proof.
  apply (only_artifacts_written the_libs notes_state "notes.txt");
    discriminate.
Defined.

Lemma load_model_completed_witness :
  path_exists the_libs model_path (load_model the_libs stored_state).1 = true /\
  path_exists the_libs scaler_path (load_model the_libs stored_state).1 = true /\
  fs the_libs (load_model the_libs (load_model the_libs stored_state).1).1 =
    fs the_libs (load_model the_libs stored_state).1 /\
  rng the_libs (load_model the_libs (load_model the_libs stored_state).1).1 =
    rng the_libs (load_model the_libs stored_state).1.
Proof.
  apply (load_model_completed the_libs stored_state). reflexivity.
Defined.

Lemma fs_restart (st : state the_libs) :
  fs the_libs (restart st) = fs the_libs st.
Proof. reflexivity. Qed.

Lemma restart_restores_fitted_pair_witness :
  load_model the_libs (restart (train_model the_libs fresh_state).1) =
    (mk_state the_libs
       (mk_globals the_libs (Model (fitted_model the_libs))
          (Scaler (fitted_scaler the_libs)))
       (fs the_libs (restart (train_model the_libs fresh_state).1))
       (rng the_libs (restart (train_model the_libs fresh_state).1))
       (stdout the_libs (restart (train_model the_libs fresh_state).1)
          ++ ["Model loaded successfully!"]),
     Done).
Proof.
  exact (restart_restores_fitted_pair the_libs fresh_state
           (train_model the_libs fresh_state).1
           (restart (train_model the_libs fresh_state).1)
           (fun o => eq_refl) (training_run fresh_state)
           (fs_restart (train_model the_libs fresh_state).1)).
Defined.

Lemma feature_matrix_rows_witness :
  length (feature_matrix (features (create_sample_data the_libs 0).1)) =
    n_samples /\
  length (price (create_sample_data the_libs 0).1) = n_samples.
Proof.
  destruct (feature_matrix_rows the_libs instance_numpy_laws 0 0%nat)
    as (H1 & H2 & _); [unfold n_samples; lia|].
  split; [exact H1|exact H2].
Defined.

Lemma first_sample_row :
  exists row x,
    feature_matrix (features (create_sample_data the_libs 0).1) !! 0%nat =
      Some row /\ row !! 3%nat = Some x.
Proof. vm_compute. eauto. Qed.

Lemma training_features_in_range_witness :
  exists x,
    (exists row,
       feature_matrix (features (create_sample_data the_libs 0).1) !! 0%nat =
         Some row /\ row !! 3%nat = Some x) /\
    in_range (mk_bound (of_Z 1) (of_Z 5) "Floors must be between 1 and 5") x
      = true.
Proof.
  destruct first_sample_row as (row & x & Hrow & Hx).
  exists x. split; [eauto|].
  apply (training_features_in_range the_libs instance_numpy_laws 0 0%nat
           3%nat row _ x Hrow); [discriminate|reflexivity|exact Hx].
Defined.

End MoreRuns.

Lemma failed_training_writes_nothing_witness :
  exists e,
    (train_model rejecting_libs rejecting_state).2 = Raised e /\
    fs rejecting_libs (train_model rejecting_libs rejecting_state).1 =
      fs rejecting_libs rejecting_state /\
    stdout rejecting_libs (train_model rejecting_libs rejecting_state).1 =
      stdout rejecting_libs rejecting_state.
Proof.
  destruct (split_data rejecting_libs (training_data rejecting_libs))
    as [[[X_train X_test] y_train] y_test] eqn:Hsplit.
  destruct (fit_transform rejecting_libs X_train) as [sc Xs] eqn:Hfit.
  destruct (transform rejecting_libs sc X_test) as [e|Xt] eqn:Htr.
  - exists e.
    destruct (failed_training_writes_nothing rejecting_libs rejecting_state
                X_train X_test y_train y_test sc Xs e Hsplit Hfit)
      as (H1 & H2 & H3 & _); [left; exact Htr|].
    split; [exact H1|]. split; [exact H2|exact H3].
  - exists (mk_exn ValueError "Input X contains NaN or infinity.").
    destruct (failed_training_writes_nothing rejecting_libs rejecting_state
                X_train X_test y_train y_test sc Xs
                (mk_exn ValueError "Input X contains NaN or infinity.")
                Hsplit Hfit)
      as (H1 & H2 & H3 & _).
    + right. exists Xt. split; [exact Htr|reflexivity].
    + split; [exact H1|]. split; [exact H2|exact H3].
Defined.
